(* ===== verification/_CoqProject ===== *)
-Q . S2P
Prelude.v
PyStr.v
Utf8.v
PyNum.v
Runtime.v
Core.v
FileInfo.v
Package.v
