(* ===== verification/Prelude.v ===== *)
(** * pysox: a verified model of the process-invocation and output-parsing layer

    The program is the Python package [sox] of [src/sox]: a wrapper that
    runs the SoX command-line tool and turns its text replies into typed
    values.  Its parts, leaf first, and how they interact:
    - the process runner [core.sox] (and [core.play]): normalises the
      argument vector so that its first element is the program name,
      launches the tool with [subprocess.Popen], writes an optional numpy
      array to its standard input, decodes its output, and turns launch
      failures into the status [(1, None, None)];
    - the capability probe [core._get_valid_formats], run once when the
      package is imported after [__init__.py] has set [NO_SOX]; its result
      is the global [VALID_FORMATS];
    - the introspection call [core.soxi] ([sox --i -<field> <file>]) and the
      typed accessors of [file_info.py] built on it ([bitdepth], [bitrate],
      [channels], [duration], [num_samples], ... and [info]);
    - the statistics parser [file_info.stat] ([_stat_call] runs
      [sox <file> -n stat] through [core.sox], [_parse_stat] parses its
      standard error) and [file_info.silent] on top of it;
    - the validation layer [validate_input_file], [validate_input_file_list],
      [validate_output_file], consulted before every accessor.

    ** Files (in dependency order)
    - [Prelude] (this file): the scope [pysox_scope], [pystr]/[pybytes]
      (Python [str] and [bytes] as lists of code points / byte values in
      [Z]), the literal [py], the tactics [invc], [zlia], [case_bools], the
      hint databases [pysox] and [pysox_rw].
    - [PyStr]: the [str], [pathlib] and [os.path] operations the sources
      call ([split], [strip], [lower], [in], [rfind], [Path.suffix],
      [os.path.dirname]), with split/join round trips and strip lemmas.
    - [Utf8]: [bytes.decode("utf-8")], CPython's strict decoder, with the
      encode/decode round trips.
    - [PyNum]: [float(str)], [int(str)], [float(int)] and float [==], [>=],
      [*]; finite values are exact rationals, overflow to infinity and
      underflow to zero are decided exactly at the binary64 thresholds.
    - [Runtime]: exceptions [exc], log records and process launches as
      events, the world (processes, file system) as an oracle, the globals
      [NO_SOX] and [VALID_FORMATS] in [env], the monad [M] (reader of
      [env], writer of events, exceptions; stdpp's [x ← m; k]) with
      [try_except], Python dicts as insertion-ordered association lists,
      and [launches L m], the contract that [m] starts the programs of [L]
      in order (a prefix on every run, all of them when it returns).
    - [Core]: [core.py] ([sox], [soxi], [_get_valid_formats], [play],
      [is_number], [all_equal]) and the numpy [tobytes]/[.T] model.
    - [FileInfo]: [file_info.py], every function.
    - [Package]: the import of the package ([__init__.py] and
      [VALID_FORMATS = _get_valid_formats()]).

    ** What the theorems show
    - Process runner (Core, C1-C8): exactly one launch of the canonical
      [sox] with the caller's arguments; the array is written in row-major
      order (a.T.tobytes("F") = a.tobytes("C"), [tobytes_T_F]); the sentinel
      [(1, None, None)] on launch failure or non-array payload; the result
      on success, which is the exit code and the raw or decoded output
      (the docstring promises a bool status and an ndarray, C5-C6); what
      escapes the handler (empty argument list, undecodable output).
    - Introspection (Core, C9-C12): [soxi] checks its field code before any
      launch, returns the stripped reply, raises [SoxiError] with the exit
      code, and lets a launch failure escape.
    - Capability probe (Core C13-C15, Package C36-C37): no launch under
      [NO_SOX]; otherwise the tokens after the third of the first marker
      line; [IndexError] without one; the import sequence.
    - [play], [is_number], [all_equal] (Core C16-C20).
    - Validation (FileInfo C21-C25): missing input raises before logging;
      unsupported extensions only warn; short lists and non-lists are
      refused; ["-n"] always passes; [IOError] exactly when the output
      directory is not writable.
    - Accessors (FileInfo C26-C31): the "0"/0.0 sentinels map to [None]
      except for [channels]; [bitrate] suffix arithmetic, and its dropping
      of the last digit of an unsuffixed reply.
    - Statistics (FileInfo C32-C34): a key's value is the value of its
      last line with exactly one colon, the key kept unstripped; [silent]
      on every branch (the NaN identity test never fires); [stat] raising
      [AttributeError] when [sox] cannot be launched.
    - Launch order (FileInfo C35): [info] starts the seven [soxi] queries
      and the [stat] run in the order of its dictionary, proved from the
      [launches] contracts of [sox], [soxi] and each accessor.
    The library lemmas include the UTF-8 round trips ([utf8_decode_encode],
    [utf8_encode_decode]), [str_join_split]/[str_split_join], [strip_idem],
    [transpose_involutive] and [dict_get_fold_set].

    ** Bounds and modelling choices
    No definition uses fuel: every recursion is structural (the UTF-8
    decoder recurses on sub-lists it has matched).  Numbers are unbounded
    [Z] as Python [int]s are; floats keep exact values within the binary64
    range (rounding to 53 bits is not modelled), with the two class-changing
    roundings at [2^1024 - 2^970] and [2^-1075].  Case mapping is ASCII
    only; non-ASCII decimal digits are not accepted by the number parsers;
    [int(str)] refuses more than 4300 digits, as CPython does since 3.11.
    Paths follow CPython 3.12's POSIX [pathlib]: [str(Path(p))] drops empty
    and ["."] components and keeps a root of exactly two slashes.
    numpy arrays are modelled in one and two dimensions.  The world is
    fixed during a call: a launched process is a function of its argument
    vector and standard input.

    ** Not modelled
    Logging configuration ([log.py]) and timing (only the log records are
    events); packaging ([setup.py]); the effect-chain builders
    [transform.py] and [combine.py], which are not in the sources; the pipe
    interleaving of [communicate] and the unread pipes of [play] (a
    potential deadlock when the child writes more than a pipe buffer). *)

From stdpp Require Export base list option decidable sets.
From Stdlib Require Export ZArith Lia.
From Stdlib Require Import String Ascii.
Export String.StringSyntax.

(** ** Notation scope of the development *)

Declare Scope pysox_scope.
Delimit Scope pysox_scope with pysox.
Open Scope Z_scope.

(** Python text ([str]) is a sequence of Unicode code points and Python
    [bytes] a sequence of integers in [0, 256).  Both are lists of [Z]. *)
Abbreviation pystr := (list Z).
Abbreviation pybytes := (list Z).

(** A Rocq string literal read as the Python [str] with the same
    (ASCII) characters: [py "sox"] is the Python literal ['sox']. *)
Definition py (s : string) : pystr :=
  map (fun a => Z.of_nat (nat_of_ascii a)) (list_ascii_of_string s).
Arguments py s%_string : simpl never.


(** ** Hint database and tactics shared by all components *)

Create HintDb pysox discriminated.
Create Rewrite HintDb pysox_rw.

(** [invc H]: invert a hypothesis and clean up. *)
Ltac invc H := inversion H; subst; clear H.

(** [zlia]: linear arithmetic over [Z] with division and remainder by
    constants (as in the byte arithmetic of UTF-8 and of byte layouts). *)
Ltac zlia := Z.div_mod_to_equations; lia.

(** [bool_decide_cases]: split on every boolean test of the goal. *)
Ltac case_bools :=
  repeat match goal with
  | |- context [if ?b then _ else _] =>
      lazymatch b with
      | bool_decide _ => case_bool_decide
      | _ => destruct b eqn:?
      end
  end.

(** ** Generic lemmas on lists and options *)

Lemma py_app (s1 s2 : string) : py (s1 ++ s2) = py s1 ++ py s2.
Proof.
  unfold py. induction s1 as [|a s1 IH]; simpl; [done|]. by rewrite IH.
Qed.

Lemma py_length (s : string) : List.length (py s) = String.length s.
Proof. unfold py. rewrite length_map. induction s; simpl; auto. Qed.

Lemma py_range (s : string) : Forall (fun c => 0 <= c < 256) (py s).
Proof.
  unfold py. induction s as [|a s IH]; simpl; constructor; [|done].
  pose proof (nat_ascii_bounded a). lia.
Qed.

#[export] Hint Rewrite py_app py_length : pysox_rw.
#[export] Hint Resolve py_range : pysox.
