(* ===== verification/PyStr.v ===== *)
(** * PyStr: the Python [str] operations the sources call

    The sources manipulate text only through a handful of [str] methods:
    [split] on a one-character separator ([core.py] line 143 and 145,
    [file_info.py] lines 421 and 424), [strip] with an explicit character
    set ([core.py] line 186, [file_info.py] lines 55 and 427), [lower] and
    [upper] ([core.py] lines 75 and 207, [file_info.py] lines 58 and 332),
    substring tests ([core.py] line 144, [file_info.py] line 62),
    [replace("\r", "")] ([file_info.py] line 404), and the [pathlib] and
    [os.path] helpers used for file extensions and output directories.
    This file gives them as Rocq functions on code-point lists, following
    CPython 3.12, with the lemmas the components use.  Case mapping is
    modelled on ASCII letters only; other code points are left unchanged. *)

From S2P Require Import Prelude.

(** ** Characters used by the sources *)

Definition c_nl : Z := 10.
Definition c_cr : Z := 13.
Definition c_space : Z := 32.
Definition c_dot : Z := 46.
Definition c_slash : Z := 47.
Definition c_colon : Z := 58.

(** ** [s.split(c)] for a one-character separator [c] *)

Fixpoint str_split (c : Z) (s : pystr) : list pystr :=
  match s with
  | [] => [[]]
  | x :: s' =>
      let parts := str_split c s' in
      if decide (x = c) then [] :: parts
      else match parts with
           | p :: ps => (x :: p) :: ps
           | [] => [[x]]
           end
  end.

(** [c.join(parts)], the inverse of [str_split]. *)
Definition str_join (c : Z) (parts : list pystr) : pystr :=
  match parts with
  | [] => []
  | p :: ps => p ++ concat (map (fun q => c :: q) ps)
  end.

(** ** [s.strip(chars)], [s.lstrip(chars)], [s.rstrip(chars)] *)

Fixpoint lstrip (P : Z -> bool) (s : pystr) : pystr :=
  match s with
  | [] => []
  | x :: s' => if P x then lstrip P s' else s
  end.

Definition rstrip (P : Z -> bool) (s : pystr) : pystr := rev (lstrip P (rev s)).

Definition strip (P : Z -> bool) (s : pystr) : pystr := rstrip P (lstrip P s).

(** Membership in the character set given as the argument of [strip]. *)
Definition in_chars (cs : pystr) (c : Z) : bool := bool_decide (c ∈ cs).

(** [str.isspace] on one code point (the set CPython's [float()] and
    [int()] strip). *)
Definition py_isspace (c : Z) : bool :=
  ((9 <=? c) && (c <=? 13)) || ((28 <=? c) && (c <=? 32)) || (c =? 133)
  || (c =? 160) || (c =? 5760) || ((8192 <=? c) && (c <=? 8202))
  || (c =? 8232) || (c =? 8233) || (c =? 8239) || (c =? 8287)
  || (c =? 12288).

(** ** [s.lower()] and [s.upper()] (ASCII letters) *)

Definition ascii_lower (c : Z) : Z :=
  if (65 <=? c) && (c <=? 90) then c + 32 else c.
Definition ascii_upper (c : Z) : Z :=
  if (97 <=? c) && (c <=? 122) then c - 32 else c.

Definition str_lower (s : pystr) : pystr := map ascii_lower s.
Definition str_upper (s : pystr) : pystr := map ascii_upper s.

(** ** Substring search: [p in s], [s.find(p)], [s.index(p)] *)

Fixpoint str_startswith (p s : pystr) : bool :=
  match p, s with
  | [], _ => true
  | x :: p', y :: s' => bool_decide (x = y) && str_startswith p' s'
  | _ :: _, [] => false
  end.

Fixpoint str_find (p s : pystr) : option nat :=
  if str_startswith p s then Some 0%nat
  else match s with
       | [] => None
       | _ :: s' => S <$> str_find p s'
       end.

Definition str_contains (p s : pystr) : bool :=
  match str_find p s with Some _ => true | None => false end.

(** [s.rfind(c)] for one character: the last index of [c]. *)
Fixpoint str_rfind (c : Z) (s : pystr) : option nat :=
  match s with
  | [] => None
  | x :: s' =>
      match str_rfind c s' with
      | Some i => Some (S i)
      | None => if decide (x = c) then Some 0%nat else None
      end
  end.

(** [s.replace(c, "")] for one character [c]. *)
Definition str_remove (c : Z) (s : pystr) : pystr := filter (fun x => x <> c) s.

(** ** [pathlib.PurePosixPath] and [os.path] (POSIX flavour) *)

(** The parts of a path after its root: [Path(p)._tail]. *)
Definition path_tail (p : pystr) : list pystr :=
  filter (fun x => x <> [] /\ x <> [c_dot]) (str_split c_slash p).

(** [Path(p).name] *)
Definition path_name (p : pystr) : pystr :=
  match list.last (path_tail p) with Some n => n | None => [] end.

(** [Path(p).suffix] *)
Definition path_suffix (p : pystr) : pystr :=
  let n := path_name p in
  match str_rfind c_dot n with
  | Some i => if bool_decide (0 < i < length n - 1)%nat then drop i n else []
  | None => []
  end.

(** The root [posixpath.splitroot] finds: exactly two leading slashes
    stay two, one or three and more become one. *)
Definition path_root (p : pystr) : pystr :=
  match p with
  | c :: r =>
      if bool_decide (c = c_slash) then
        match r with
        | c' :: r' =>
            if bool_decide (c' = c_slash) then
              match r' with
              | c'' :: _ => if bool_decide (c'' = c_slash) then [c_slash] else [c_slash; c_slash]
              | [] => [c_slash; c_slash]
              end
            else [c_slash]
        | [] => [c_slash]
        end
      else []
  | [] => []
  end.

(** [str(Path(p))]: the root, then the components without empty and
    ["."] ones, and ["."] for an empty result. *)
Definition path_str (p : pystr) : pystr :=
  let s := path_root p ++ str_join c_slash (path_tail p) in
  if bool_decide (s = []) then [c_dot] else s.

(** [os.path.dirname(p)] *)
Definition os_path_dirname (p : pystr) : pystr :=
  let i := match str_rfind c_slash p with Some j => S j | None => 0%nat end in
  let head := take i p in
  if bool_decide (head <> []) && negb (forallb (fun x => bool_decide (x = c_slash)) head)
  then rstrip (fun x => bool_decide (x = c_slash)) head
  else head.

(** ** Lemmas *)

Lemma str_split_not_nil c s : str_split c s <> [].
Proof.
  destruct s as [|x s]; simpl; [done|].
  case_decide; [done|]. by destruct (str_split c s).
Qed.

(** Splitting on [c] and joining with [c] gives the text back. *)
Lemma str_join_split c s : str_join c (str_split c s) = s.
Proof.
  induction s as [|x s IH]; [done|]. simpl.
  pose proof (str_split_not_nil c s) as Hne.
  case_decide; subst.
  - destruct (str_split c s) as [|p ps]; [done|]. simpl in *. by rewrite IH.
  - destruct (str_split c s) as [|p ps]; [done|]. simpl in *. by rewrite IH.
Qed.

(** No piece of a split contains the separator. *)
Lemma str_split_sep_free c s : Forall (fun p => c ∉ p) (str_split c s).
Proof.
  induction s as [|x s IH]; simpl.
  - repeat constructor. set_solver.
  - case_decide; [by constructor; [set_solver|]|].
    destruct (str_split c s) as [|p ps]; [repeat constructor; set_solver|].
    inversion IH; subst. constructor; [|done]. set_solver.
Qed.

(** The number of pieces is one more than the number of separators. *)
Lemma length_str_split c s :
  length (str_split c s) = S (length (filter (fun x => x = c) s)).
Proof.
  induction s as [|x s IH]; [done|]. simpl.
  pose proof (str_split_not_nil c s).
  rewrite filter_cons. case_decide; simpl; [by rewrite IH|].
  destruct (str_split c s); simpl in *; congruence.
Qed.

(** Joining separator-free pieces and splitting again gives the pieces. *)
Lemma str_split_join c p ps :
  Forall (fun q => c ∉ q) (p :: ps) -> str_split c (str_join c (p :: ps)) = p :: ps.
Proof.
  revert p. induction ps as [|q ps IH]; intros p Hf; simpl.
  - rewrite app_nil_r. inversion Hf as [|? ? Hp _]; subst. clear Hf.
    induction p as [|x p IHp]; [done|]. simpl.
    rewrite IHp by set_solver. case_decide; [set_solver|done].
  - inversion Hf as [|? ? Hp Hf']; subst.
    specialize (IH q Hf'). simpl in IH.
    induction p as [|x p IHp]; simpl.
    + rewrite IH. case_decide; done.
    + rewrite IHp by set_solver. case_decide; [set_solver|done].
Qed.

Lemma lstrip_suffix P s : exists pre, s = pre ++ lstrip P s /\ Forall (fun x => P x = true) pre.
Proof.
  induction s as [|x s IH]; simpl; [by exists []|].
  destruct (P x) eqn:E.
  - destruct IH as [pre [Hs Hf]]. exists (x :: pre). split; [simpl; by rewrite <- Hs|by constructor].
  - by exists [].
Qed.

Lemma lstrip_head P s x s' : lstrip P s = x :: s' -> P x = false.
Proof.
  induction s as [|y s IH]; simpl; [done|].
  destruct (P y) eqn:E; [done|]. intros [= -> ->]. done.
Qed.

(** [lstrip] leaves a text whose first character is kept untouched. *)
Lemma lstrip_keep P x s : P x = false -> lstrip P (x :: s) = x :: s.
Proof. simpl. by intros ->. Qed.

Lemma rstrip_keep P s x : P x = false -> rstrip P (s ++ [x]) = s ++ [x].
Proof.
  intros Hx. unfold rstrip. rewrite rev_app_distr. simpl. rewrite Hx.
  simpl. by rewrite rev_involutive.
Qed.

Lemma strip_keep P x s y :
  P x = false -> P y = false -> strip P (x :: s ++ [y]) = x :: s ++ [y].
Proof.
  intros Hx Hy. unfold strip. rewrite lstrip_keep by done.
  rewrite app_comm_cons. by apply rstrip_keep.
Qed.

Lemma str_startswith_app p s : str_startswith p (p ++ s) = true.
Proof. induction p; simpl; [done|]. rewrite IHp. by rewrite bool_decide_true. Qed.

Lemma str_find_cons p x s :
  str_find p (x :: s) = if str_startswith p (x :: s) then Some 0%nat else S <$> str_find p s.
Proof. done. Qed.

Lemma str_find_start p s : str_startswith p s = true -> str_find p s = Some 0%nat.
Proof. destruct s; simpl; by intros ->. Qed.

Lemma str_contains_app p s1 s2 : str_contains p (s1 ++ p ++ s2) = true.
Proof.
  unfold str_contains. induction s1 as [|x s1 IH]; cbn [app].
  - by rewrite str_find_start by apply str_startswith_app.
  - rewrite str_find_cons. destruct (str_startswith p _); [done|].
    by destruct (str_find p _).
Qed.

Lemma str_lower_length s : length (str_lower s) = length s.
Proof. apply length_map. Qed.

Lemma lstrip_idem P s : lstrip P (lstrip P s) = lstrip P s.
Proof.
  induction s as [|x s IH]; simpl; [done|].
  destruct (P x) eqn:E; [done|]. simpl. by rewrite E.
Qed.

Lemma lstrip_snoc_keep P l x : P x = false -> lstrip P (l ++ [x]) = lstrip P l ++ [x].
Proof.
  intros Hx. induction l as [|y l IH]; simpl; [by rewrite Hx|].
  by destruct (P y).
Qed.

Lemma rstrip_cons_keep P x t : P x = false -> rstrip P (x :: t) = x :: rstrip P t.
Proof.
  intros Hx. unfold rstrip. simpl. rewrite lstrip_snoc_keep by done.
  by rewrite rev_app_distr.
Qed.

Lemma rstrip_idem P s : rstrip P (rstrip P s) = rstrip P s.
Proof. unfold rstrip. by rewrite rev_involutive, lstrip_idem. Qed.

(** [strip] is idempotent. *)
Lemma strip_idem P s : strip P (strip P s) = strip P s.
Proof.
  unfold strip. destruct (lstrip P s) as [|x t] eqn:E; [done|].
  pose proof (lstrip_head P s x t E) as Hx.
  rewrite rstrip_cons_keep by done. simpl. rewrite Hx.
  rewrite <- rstrip_cons_keep by done. apply rstrip_idem.
Qed.

(** [strip] depends only on the set of characters it removes. *)
Lemma lstrip_ext P Q s : (forall x, P x = Q x) -> lstrip P s = lstrip Q s.
Proof. intros H. induction s as [|x s IH]; simpl; [done|]. by rewrite H, IH. Qed.

Lemma strip_ext P Q s : (forall x, P x = Q x) -> strip P s = strip Q s.
Proof.
  intros H. unfold strip, rstrip. rewrite (lstrip_ext P Q s H).
  by rewrite (lstrip_ext P Q _ H).
Qed.

Lemma in_chars_comm a b x : in_chars [a; b] x = in_chars [b; a] x.
Proof. unfold in_chars. apply bool_decide_ext. set_solver. Qed.

#[export] Hint Resolve str_split_not_nil str_startswith_app str_contains_app : pysox.
#[export] Hint Rewrite str_join_split str_lower_length : pysox_rw.
