(* ===== verification/Utf8.v ===== *)
(** * Utf8: [bytes.decode("utf-8")] as CPython's strict decoder

    Every text the sources read from the external tool goes through
    [bytes.decode("utf-8")] with the default [errors="strict"]: the
    captured stdout and stderr of [core.sox] (lines 91 and 110), the
    reply of [core.soxi] (line 184) and the help text read by
    [core._get_valid_formats] (line 142).  A byte sequence that is not
    well-formed UTF-8 raises [UnicodeDecodeError], which no handler of the
    sources catches.  [utf8_decode] returns [None] exactly there.

    The theorems: decoding inverts encoding on Unicode scalar values
    ([utf8_decode_encode]), the decoder accepts only canonical encodings
    ([utf8_encode_decode]), ASCII bytes decode to themselves, and every
    decoded code point is a scalar value. *)

From S2P Require Import Prelude.

(** ** The decoder *)

Definition in_range (lo hi b : Z) : bool := (lo <=? b) && (b <=? hi).

Definition is_cont (b : Z) : bool := in_range 128 191 b.

Fixpoint utf8_decode (bs : pybytes) : option pystr :=
  match bs with
  | [] => Some []
  | b0 :: r0 =>
      if in_range 0 127 b0 then cons b0 <$> utf8_decode r0
      else if in_range 194 223 b0 then
        match r0 with
        | b1 :: r1 =>
            if is_cont b1
            then cons ((b0 - 192) * 64 + (b1 - 128)) <$> utf8_decode r1
            else None
        | [] => None
        end
      else if in_range 224 239 b0 then
        match r0 with
        | b1 :: b2 :: r2 =>
            let lo := if decide (b0 = 224) then 160 else 128 in
            let hi := if decide (b0 = 237) then 159 else 191 in
            if in_range lo hi b1 && is_cont b2
            then cons ((b0 - 224) * 4096 + (b1 - 128) * 64 + (b2 - 128))
                   <$> utf8_decode r2
            else None
        | _ => None
        end
      else if in_range 240 244 b0 then
        match r0 with
        | b1 :: b2 :: b3 :: r3 =>
            let lo := if decide (b0 = 240) then 144 else 128 in
            let hi := if decide (b0 = 244) then 143 else 191 in
            if in_range lo hi b1 && is_cont b2 && is_cont b3
            then cons ((b0 - 240) * 262144 + (b1 - 128) * 4096
                       + (b2 - 128) * 64 + (b3 - 128))
                   <$> utf8_decode r3
            else None
        | _ => None
        end
      else None
  end.

(** ** The encoder, as the specification of the decoder *)

Definition utf8_encode_cp (c : Z) : pybytes :=
  if c <? 128 then [c]
  else if c <? 2048 then [192 + c / 64; 128 + c mod 64]
  else if c <? 65536 then [224 + c / 4096; 128 + (c / 64) mod 64; 128 + c mod 64]
  else [240 + c / 262144; 128 + (c / 4096) mod 64; 128 + (c / 64) mod 64;
        128 + c mod 64].

Definition utf8_encode (s : pystr) : pybytes := concat (map utf8_encode_cp s).

(** A Unicode scalar value: a code point that is not a surrogate. *)
Definition scalar (c : Z) : Prop := 0 <= c <= 1114111 /\ ~ (55296 <= c <= 57343).

#[export] Instance scalar_dec c : Decision (scalar c).
Proof. unfold scalar. apply _. Defined.

(** ** Lemmas *)

Lemma in_range_spec lo hi b : in_range lo hi b = true <-> lo <= b <= hi.
Proof. unfold in_range. rewrite andb_true_iff, !Z.leb_le. lia. Qed.

Lemma in_range_false lo hi b : in_range lo hi b = false <-> ~ (lo <= b <= hi).
Proof. rewrite <- in_range_spec. destruct (in_range lo hi b); intuition congruence. Qed.

(** The four kinds of decoder step, as equations. *)
Lemma utf8_decode_1 b0 r : 0 <= b0 <= 127 -> utf8_decode (b0 :: r) = cons b0 <$> utf8_decode r.
Proof. intros H. cbn [utf8_decode]. by rewrite (proj2 (in_range_spec _ _ _) H). Qed.

Lemma utf8_decode_2 b0 b1 r :
  194 <= b0 <= 223 -> 128 <= b1 <= 191 ->
  utf8_decode (b0 :: b1 :: r) = cons ((b0 - 192) * 64 + (b1 - 128)) <$> utf8_decode r.
Proof.
  intros H0 H1. cbn [utf8_decode]. unfold is_cont.
  rewrite (proj2 (in_range_false 0 127 b0)) by lia.
  by rewrite !(proj2 (in_range_spec _ _ _)) by lia.
Qed.

Lemma utf8_decode_3 b0 b1 b2 r :
  224 <= b0 <= 239 ->
  (if decide (b0 = 224) then 160 else 128) <= b1 <= (if decide (b0 = 237) then 159 else 191) ->
  128 <= b2 <= 191 ->
  utf8_decode (b0 :: b1 :: b2 :: r)
  = cons ((b0 - 224) * 4096 + (b1 - 128) * 64 + (b2 - 128)) <$> utf8_decode r.
Proof.
  intros H0 H1 H2. cbn [utf8_decode]. unfold is_cont.
  rewrite (proj2 (in_range_false 0 127 b0)), (proj2 (in_range_false 194 223 b0)) by lia.
  by rewrite !(proj2 (in_range_spec _ _ _)) by lia.
Qed.

Lemma utf8_decode_4 b0 b1 b2 b3 r :
  240 <= b0 <= 244 ->
  (if decide (b0 = 240) then 144 else 128) <= b1 <= (if decide (b0 = 244) then 143 else 191) ->
  128 <= b2 <= 191 -> 128 <= b3 <= 191 ->
  utf8_decode (b0 :: b1 :: b2 :: b3 :: r)
  = cons ((b0 - 240) * 262144 + (b1 - 128) * 4096 + (b2 - 128) * 64 + (b3 - 128))
      <$> utf8_decode r.
Proof.
  intros H0 H1 H2 H3. cbn [utf8_decode]. unfold is_cont.
  rewrite (proj2 (in_range_false 0 127 b0)), (proj2 (in_range_false 194 223 b0)),
    (proj2 (in_range_false 224 239 b0)) by lia.
  by rewrite !(proj2 (in_range_spec _ _ _)) by lia.
Qed.

(** [enc_arith] closes the arithmetic goals of one encoding step. *)
Ltac enc_arith :=
  unfold utf8_encode_cp, scalar;
  repeat match goal with |- context [?a <? ?b] => destruct (Z.ltb_spec a b) end;
  first [exfalso; zlia | split; [repeat f_equal; zlia | zlia]].

Lemma utf8_encode_cp_1 b0 : 0 <= b0 <= 127 -> utf8_encode_cp b0 = [b0] /\ scalar b0.
Proof. intros. enc_arith. Qed.

Lemma utf8_encode_cp_2 b0 b1 :
  194 <= b0 <= 223 -> 128 <= b1 <= 191 ->
  let c := (b0 - 192) * 64 + (b1 - 128) in utf8_encode_cp c = [b0; b1] /\ scalar c.
Proof. intros. enc_arith. Qed.

Lemma utf8_encode_cp_3 b0 b1 b2 :
  224 <= b0 <= 239 ->
  (if decide (b0 = 224) then 160 else 128) <= b1 <= (if decide (b0 = 237) then 159 else 191) ->
  128 <= b2 <= 191 ->
  let c := (b0 - 224) * 4096 + (b1 - 128) * 64 + (b2 - 128) in
  utf8_encode_cp c = [b0; b1; b2] /\ scalar c.
Proof. intros ? Hb1 ?. repeat case_decide; enc_arith. Qed.

Lemma utf8_encode_cp_4 b0 b1 b2 b3 :
  240 <= b0 <= 244 ->
  (if decide (b0 = 240) then 144 else 128) <= b1 <= (if decide (b0 = 244) then 143 else 191) ->
  128 <= b2 <= 191 -> 128 <= b3 <= 191 ->
  let c := (b0 - 240) * 262144 + (b1 - 128) * 4096 + (b2 - 128) * 64 + (b3 - 128) in
  utf8_encode_cp c = [b0; b1; b2; b3] /\ scalar c.
Proof. intros ? Hb1 ? ?. repeat case_decide; enc_arith. Qed.

Lemma utf8_decode_cp c rest :
  scalar c ->
  utf8_decode (utf8_encode_cp c ++ rest) = cons c <$> utf8_decode rest.
Proof.
  intros [Hr Hs]. unfold utf8_encode_cp.
  destruct (Z.ltb_spec c 128); cbv beta iota; [cbn [app]; by rewrite utf8_decode_1 by lia|].
  destruct (Z.ltb_spec c 2048); cbv beta iota.
  { cbn [app]. rewrite utf8_decode_2 by zlia. do 3 f_equal. zlia. }
  destruct (Z.ltb_spec c 65536); cbv beta iota.
  { cbn [app]. rewrite utf8_decode_3; [do 3 f_equal; zlia|zlia| |zlia].
    repeat case_decide; zlia. }
  cbn [app]. rewrite utf8_decode_4; [do 3 f_equal; zlia|zlia| |zlia|zlia].
  repeat case_decide; zlia.
Qed.

(** Decoding inverts encoding on scalar values. *)
Theorem utf8_decode_encode s :
  Forall scalar s -> utf8_decode (utf8_encode s) = Some s.
Proof.
  induction 1 as [|c s Hc _ IH]; [done|].
  unfold utf8_encode in *. cbn [map concat].
  by rewrite utf8_decode_cp, IH.
Qed.

(** [range_cases_in H] decides the range tests the decoder made in [H]. *)
Ltac range_cases_in H :=
  unfold is_cont in H;
  repeat match type of H with
  | context [in_range ?lo ?hi ?b] =>
      let E := fresh "E" in
      destruct (in_range lo hi b) eqn:E;
      [apply in_range_spec in E | apply in_range_false in E]; cbn [andb] in H
  end.

(** One successful step of the decoder consumes the encoding of one
    scalar value. *)
Lemma utf8_decode_cons_inv b0 r0 s :
  utf8_decode (b0 :: r0) = Some s ->
  exists c s' rest, s = c :: s' /\ b0 :: r0 = utf8_encode_cp c ++ rest
               /\ scalar c /\ utf8_decode rest = Some s'
               /\ (length rest < length (b0 :: r0))%nat.
Proof.
  intros Hd. cbn [utf8_decode] in Hd.
  destruct (in_range 0 127 b0) eqn:E0.
  { apply in_range_spec in E0. destruct (utf8_decode r0) as [s'|] eqn:Ed; [|done].
    injection Hd as <-. destruct (utf8_encode_cp_1 b0 E0) as [Henc Hsc].
    exists b0, s', r0. rewrite Henc. split_and!; simpl; auto. }
  destruct (in_range 194 223 b0) eqn:E1.
  { apply in_range_spec in E1. destruct r0 as [|b1 r1]; [done|]. range_cases_in Hd; [|done].
    destruct (utf8_decode r1) as [s'|] eqn:Ed; [|done]. injection Hd as <-.
    destruct (utf8_encode_cp_2 b0 b1) as [Henc Hsc]; [done|done|].
    eexists _, s', r1. rewrite Henc. split_and!; simpl; auto. }
  destruct (in_range 224 239 b0) eqn:E2.
  { apply in_range_spec in E2. destruct r0 as [|b1 [|b2 r2]]; [done|done|].
    range_cases_in Hd; try done.
    destruct (utf8_decode r2) as [s'|] eqn:Ed; [|done]. injection Hd as <-.
    destruct (utf8_encode_cp_3 b0 b1 b2) as [Henc Hsc]; [done|done|done|].
    eexists _, s', r2. rewrite Henc. split_and!; simpl; auto. }
  destruct (in_range 240 244 b0) eqn:E3; [|done].
  apply in_range_spec in E3. destruct r0 as [|b1 [|b2 [|b3 r3]]]; try done.
  range_cases_in Hd; try done.
  destruct (utf8_decode r3) as [s'|] eqn:Ed; [|done]. injection Hd as <-.
  destruct (utf8_encode_cp_4 b0 b1 b2 b3) as [Henc Hsc]; [done|done|done|done|].
  eexists _, s', r3. rewrite Henc. split_and!; simpl; auto.
Qed.

(** The decoder accepts only the canonical encoding of what it returns. *)
Theorem utf8_encode_decode bs s : utf8_decode bs = Some s -> utf8_encode s = bs.
Proof.
  remember (length bs) as n eqn:Hn. revert bs s Hn.
  induction n as [n IH] using (well_founded_induction lt_wf).
  intros [|b0 r0] s Hn Hd.
  - by injection Hd as <-.
  - destruct (utf8_decode_cons_inv b0 r0 s Hd) as (c & s' & rest & -> & Hbs & _ & Hr & Hlt).
    unfold utf8_encode. cbn [map concat]. fold (utf8_encode s').
    rewrite Hbs. f_equal. eapply IH; [|done|done]. subst n. lia.
Qed.

(** Every decoded code point is a scalar value. *)
Lemma utf8_decode_scalar bs s : utf8_decode bs = Some s -> Forall scalar s.
Proof.
  remember (length bs) as n eqn:Hn. revert bs s Hn.
  induction n as [n IH] using (well_founded_induction lt_wf).
  intros [|b0 r0] s Hn Hd.
  - by injection Hd as <-.
  - destruct (utf8_decode_cons_inv b0 r0 s Hd) as (c & s' & rest & -> & _ & Hc & Hr & Hlt).
    constructor; [done|]. apply (IH (length rest)) with (bs := rest); [|done|done].
    subst n. lia.
Qed.

(** Bytes below 128 decode to the same code points. *)
Lemma utf8_decode_ascii bs : Forall (fun b => 0 <= b < 128) bs -> utf8_decode bs = Some bs.
Proof.
  induction 1 as [|b bs Hb _ IH]; [done|]. cbn [utf8_decode].
  replace (in_range 0 127 b) with true by (symmetry; apply in_range_spec; lia).
  by rewrite IH.
Qed.

#[export] Hint Resolve utf8_decode_ascii utf8_decode_scalar : pysox.
