(* ===== verification/PyNum.v ===== *)
(** * PyNum: Python's [float()] and [int()] on text, and float arithmetic

    [file_info.py] turns the tool's replies into numbers with [int(...)]
    (lines 34, 85, 190) and [float(...)] (lines 64, 66, 125, 128, 209,
    429), multiplies by a power of 1000 (line 64) and compares with [==]
    (line 125) and [>=] (line 236).  This file models those builtins.

    - [py_float_of_str] follows CPython's [float(str)]: surrounding
      whitespace is stripped, an optional sign, the words [inf],
      [infinity] and [nan] in any case, and otherwise
      [[digitpart] "." digitpart | digitpart ["."]] with an optional
      exponent, where [digitpart] allows single underscores between digits.
      [None] is the [ValueError] case.
    - A finite value is kept as the exact rational number the literal
      denotes; only the two rounding decisions that change the class of
      the result are modelled: magnitudes at or above
      [2^1024 - 2^970] round to infinity, magnitudes at or below
      [2^-1075] round to zero.  Rounding to 53 bits inside the range is
      not modelled.
    - [py_int_of_str] follows [int(str)] in base 10, including the limit of
      4300 digits CPython enforces since 3.11 (underscores not counted).
    Non-ASCII decimal digits, which CPython also accepts, are not modelled
    (they are rejected). *)

From S2P Require Import Prelude PyStr.
From Stdlib Require Import QArith Qabs Qround.
Local Open Scope Z_scope.

(** ** Python floats *)

Inductive pyfloat :=
| PFin (q : Q)
| PInf
| PNInf
| PNaN.

(** The least magnitude that rounds to infinity, and the greatest one
    that rounds to zero, in IEEE binary64 round-to-nearest-even. *)
Definition overflow_bound : Q := inject_Z (2 ^ 1024 - 2 ^ 970).
Definition underflow_bound : Q := 1 # (2 ^ 1075).

Definition round_q (q : Q) : pyfloat :=
  if Qle_bool overflow_bound (Qabs q) then (if Qle_bool 0%Q q then PInf else PNInf)
  else if Qle_bool (Qabs q) underflow_bound then PFin 0%Q
  else PFin (Qred q).

(** The value [m * 10^e] of a decimal literal.  Exponents that put the
    value far outside the binary64 range are classified before any power
    of ten is computed. *)
Definition q_pow10 (m e : Z) : Q :=
  if 0 <=? e then inject_Z (m * 10 ^ e) else m # Z.to_pos (10 ^ (- e)).

Definition round_decimal (m e : Z) : pyfloat :=
  if m =? 0 then PFin 0%Q
  else if 400 <? e then (if 0 <? m then PInf else PNInf)
  else if e + Z.log2 (Z.abs m) + 1 <? -400 then PFin 0%Q
  else round_q (q_pow10 m e).

(** [x == y], [x >= y] and [x * y] on Python floats. *)
Definition pf_eqb (x y : pyfloat) : bool :=
  match x, y with
  | PFin a, PFin b => Qeq_bool a b
  | PInf, PInf | PNInf, PNInf => true
  | _, _ => false
  end.

Definition pf_geb (x y : pyfloat) : bool :=
  match x, y with
  | PNaN, _ | _, PNaN => false
  | PInf, _ => true
  | _, PNInf => true
  | PNInf, _ => false
  | _, PInf => false
  | PFin a, PFin b => Qle_bool b a
  end.

(** The sign of a non-NaN float: [Some true] for negative. *)
Definition pf_sign (x : pyfloat) : option comparison :=
  match x with
  | PFin a => Some (Qcompare a 0%Q)
  | PInf => Some Gt
  | PNInf => Some Lt
  | PNaN => None
  end.

Definition pf_mul (x y : pyfloat) : pyfloat :=
  match x, y with
  | PFin a, PFin b => round_q (a * b)%Q
  | PNaN, _ | _, PNaN => PNaN
  | _, _ =>
      match pf_sign x, pf_sign y with
      | Some Eq, _ | _, Some Eq => PNaN
      | Some sx, Some sy =>
          if bool_decide (sx = sy) then PInf else PNInf
      | _, _ => PNaN
      end
  end.

(** [float(n)] for a Python [int] [n]; [None] is [OverflowError]. *)
Definition float_of_int (z : Z) : option pyfloat :=
  if Qle_bool overflow_bound (Qabs (inject_Z z)) then None else Some (round_q (inject_Z z)).

(** ** Lexing decimal literals *)

Definition is_digit (c : Z) : bool := (48 <=? c) && (c <=? 57).

Definition c_underscore : Z := 95.

(** After a first digit: [(["_"] digit)*], greedily. *)
Fixpoint digit_tail (s : pystr) : list Z * pystr :=
  match s with
  | [] => ([], [])
  | c :: s' =>
      if is_digit c then let '(ds, r) := digit_tail s' in (c - 48 :: ds, r)
      else if bool_decide (c = c_underscore) then
        match s' with
        | d :: s'' =>
            if is_digit d then let '(ds, r) := digit_tail s'' in (d - 48 :: ds, r)
            else ([], s)
        | [] => ([], s)
        end
      else ([], s)
  end.

(** [digitpart ::= digit (["_"] digit)*] *)
Definition digitpart (s : pystr) : option (list Z * pystr) :=
  match s with
  | c :: s' => if is_digit c then let '(ds, r) := digit_tail s' in Some (c - 48 :: ds, r)
               else None
  | [] => None
  end.

Definition digits_value (ds : list Z) : Z := fold_left (fun acc d => acc * 10 + d) ds 0.

(** [number ::= [digitpart] "." digitpart | digitpart ["."]]: the
    integer of all its digits, the power of ten to scale it by, and the
    rest of the text. *)
Definition parse_number (s : pystr) : option (Z * Z * pystr) :=
  match digitpart s with
  | Some (ip, r) =>
      match r with
      | c :: r' =>
          if bool_decide (c = c_dot) then
            match digitpart r' with
            | Some (fp, r'') =>
                Some (digits_value (ip ++ fp), - Z.of_nat (length fp), r'')
            | None => Some (digits_value ip, 0, r')
            end
          else Some (digits_value ip, 0, r)
      | [] => Some (digits_value ip, 0, [])
      end
  | None =>
      match s with
      | c :: r' =>
          if bool_decide (c = c_dot) then
            match digitpart r' with
            | Some (fp, r'') => Some (digits_value fp, - Z.of_nat (length fp), r'')
            | None => None
            end
          else None
      | [] => None
      end
  end.

(** An optional sign: [true] when it is a minus. *)
Definition split_sign (s : pystr) : bool * pystr :=
  match s with
  | c :: r => if bool_decide (c = 43) then (false, r)
              else if bool_decide (c = 45) then (true, r) else (false, s)
  | [] => (false, [])
  end.

(** [exponent ::= ("e" | "E") [sign] digitpart], which must end the text. *)
Definition parse_exponent (s : pystr) : option Z :=
  match s with
  | c :: r =>
      if bool_decide (c = 101 \/ c = 69) then
        let '(neg, r') := split_sign r in
        match digitpart r' with
        | Some (ds, []) => Some (if neg then - digits_value ds else digits_value ds)
        | _ => None
        end
      else None
  | [] => None
  end.

(** [floatnumber ::= number [exponent]], the whole text. *)
Definition parse_floatnumber (s : pystr) : option (Z * Z) :=
  match parse_number s with
  | Some (m, e, []) => Some (m, e)
  | Some (m, e, r) => (fun x => (m, e + x)) <$> parse_exponent r
  | None => None
  end.

(** [float(s)] for a [str] argument; [None] is [ValueError]. *)
Definition py_float_of_str (s : pystr) : option pyfloat :=
  let '(neg, body) := split_sign (strip py_isspace s) in
  let lb := str_lower body in
  if bool_decide (lb = py "inf" \/ lb = py "infinity") then
    Some (if neg then PNInf else PInf)
  else if bool_decide (lb = py "nan") then Some PNaN
  else (fun '(m, e) => round_decimal (if neg then - m else m) e) <$> parse_floatnumber body.

(** The default of [sys.get_int_max_str_digits()]. *)
Definition int_max_str_digits : nat := 4300.

(** [int(s)] for a [str] argument in base 10; [None] is [ValueError],
    also for a literal of more than [int_max_str_digits] digits. *)
Definition py_int_of_str (s : pystr) : option Z :=
  let '(neg, body) := split_sign (strip py_isspace s) in
  match digitpart body with
  | Some (ds, []) =>
      if bool_decide (length ds <= int_max_str_digits)%nat
      then Some (if neg then - digits_value ds else digits_value ds)
      else None
  | _ => None
  end.

(** ** Lemmas *)

Lemma pf_eqb_refl_fin q : pf_eqb (PFin q) (PFin q) = true.
Proof. simpl. apply Qeq_bool_iff. reflexivity. Qed.

Lemma pf_geb_nan_l x : pf_geb PNaN x = false.
Proof. done. Qed.

Lemma pf_geb_nan_r x : pf_geb x PNaN = false.
Proof. by destruct x. Qed.

Lemma round_q_fin q :
  ~ (overflow_bound <= Qabs q)%Q -> ~ (Qabs q <= underflow_bound)%Q ->
  round_q q = PFin (Qred q).
Proof.
  intros H1 H2. unfold round_q.
  destruct (Qle_bool overflow_bound (Qabs q)) eqn:E; [apply Qle_bool_iff in E; done|].
  destruct (Qle_bool (Qabs q) underflow_bound) eqn:E'; [apply Qle_bool_iff in E'; done|].
  done.
Qed.

(** [float(n)] overflows exactly from [2^1024 - 2^970] on. *)
Lemma float_of_int_overflow z : 2 ^ 1024 - 2 ^ 970 <= Z.abs z -> float_of_int z = None.
Proof.
  intros H. unfold float_of_int. change (Qabs (inject_Z z)) with (inject_Z (Z.abs z)).
  unfold overflow_bound. rewrite (proj2 (Qle_bool_iff _ _)); [done|]. by rewrite <- Zle_Qle.
Qed.

#[export] Hint Resolve pf_eqb_refl_fin pf_geb_nan_l pf_geb_nan_r : pysox.
