(* ===== verification/Runtime.v ===== *)
(** * Runtime: exceptions, the log, the external world and the monad

    The modelled functions of [core.py] and [file_info.py] have three
    kinds of effect: they raise Python exceptions, they write log records
    through [logger] and they talk to the operating system (spawning the
    [sox] and [play] executables, asking whether paths exist or are
    writable).  This file fixes how the development represents them:

    - [exc]: the exceptions the sources raise or catch, one constructor
      per raise site or library error, with the data its message shows;
      [is_OSError], [is_TypeError], [is_ValueError] give the classes an
      [except] clause tests.
    - [event]: an observable step.  [ESpawn argv stdin] is an attempt to
      launch a process, [ELog level msg] a log record.  A run produces the
      list of its events in order, so the order of launches and log lines
      is part of every statement about a run.
    - [world]: the operating system as the code sees it, a fixed oracle:
      which processes can be launched and what they return for a given
      argument vector and standard input, which paths exist, which are
      writable, and the working directory.
    - [env]: the world with the two module-level globals of the package,
      [NO_SOX] ([__init__.py] line 8) and [VALID_FORMATS] ([core.py]
      line 150), which every function reads and none writes.
    - [M A]: a computation reading [env], producing events, and ending in
      [Ret a] or [Raise e]; stdpp's [x ← m; k] is its bind.
    - [dict]: a Python [dict] with its insertion order, as an association
      list; [dict_set] is [d[k] = v]. *)

From S2P Require Import Prelude PyStr Utf8 PyNum.

(** ** Exceptions *)

Inductive exc :=
| ValueError_float (s : pystr)        (** [float(s)] on a malformed text *)
| ValueError_int (s : pystr)          (** [int(s)] on a malformed text *)
| ValueError_soxi_arg (arg : pystr)   (** [core.soxi] line 172 *)
| ValueError_list_length              (** [file_info] line 276 *)
| UnicodeDecodeError                  (** [bytes.decode("utf-8")] *)
| TypeError_src_array                 (** [core.sox] line 105 *)
| TypeError_list                      (** [file_info] line 274 *)
| TypeError_float                     (** [float(x)] on a non-number *)
| OverflowError_float                 (** [float(n)] on a huge [int] *)
| OSError_launch (argv : list pystr)  (** [FileNotFoundError] from [Popen] *)
| IOError_missing (path : pystr)      (** [file_info] line 256 *)
| IOError_nowrite (path : pystr)      (** [file_info] line 306 *)
| CalledProcessError (rc : Z) (output : pybytes)
| SoxiError (rc : Z)                  (** [core.soxi] line 182 *)
| IndexError                          (** [seq[i]] out of range *)
| KeyError (key : pystr)              (** [d[key]] on a missing key *)
| AttributeError_none.                (** a method called on [None] *)

Definition is_OSError (e : exc) : bool :=
  match e with
  | OSError_launch _ | IOError_missing _ | IOError_nowrite _ => true
  | _ => false
  end.

Definition is_TypeError (e : exc) : bool :=
  match e with TypeError_src_array | TypeError_list | TypeError_float => true | _ => false end.

Definition is_ValueError (e : exc) : bool :=
  match e with
  | ValueError_float _ | ValueError_int _ | ValueError_soxi_arg _
  | ValueError_list_length | UnicodeDecodeError => true
  | _ => false
  end.

(** ** Log records and events *)

Inductive level := DEBUG | INFO | WARNING | ERROR.

(** The statistics a warning says are unavailable. *)
Inductive field := FBitDepth | FBitRate | FDuration | FNumSamples | FMeanNorm.

Inductive msg :=
| MSoxNotFound                              (** [__init__.py] line 11 *)
| MExecuting (argv : list pystr)            (** [core.py] lines 81, 213 *)
| MSoxTook                                  (** [core.py] line 108 *)
| MSoxFailed (e : exc)                      (** [core.py] lines 114, 116 *)
| MSoxiErrorMessage (output : pybytes)      (** [core.py] line 181 *)
| MPlayStderr                               (** [core.py] line 220 *)
| MPlayReturned (status : Z)                (** [core.py] line 225 *)
| MPlayOSError (e : exc)                    (** [core.py] line 228 *)
| MPlayTypeError (e : exc)                  (** [core.py] line 230 *)
| MUnavailable (what : field) (path : pystr)
| MStatDict (d : list (pystr * option pyfloat))
| MValidFormats (formats : list pystr)
| MCannotProcess (ext : pystr)
| MOverwrite (path : pystr).

Inductive event :=
| ESpawn (argv : list pystr) (stdin : option pybytes)
| ELog (lv : level) (m : msg).

Definition is_spawn (ev : event) : bool := match ev with ESpawn _ _ => true | _ => false end.

(** The spawns of a trace, in order. *)
Definition spawns (t : list event) : list (list pystr * option pybytes) :=
  omap (fun ev => match ev with ESpawn a i => Some (a, i) | _ => None end) t.

(** ** The world and the package globals *)

Record proc_result := mk_proc { returncode : Z; stdout : pybytes; stderr : pybytes }.

Record world := mk_world {
  run_process : list pystr -> option pybytes -> option proc_result;
  path_exists : pystr -> bool;
  path_writable : pystr -> bool;
  getcwd : pystr
}.

Record env := mk_env { env_world : world; NO_SOX : bool; VALID_FORMATS : list pystr }.

(** ** The monad *)

Inductive outcome (A : Type) := Ret (a : A) | Raise (e : exc).
Arguments Ret {A} a.
Arguments Raise {A} e.

Definition M (A : Type) : Type := env -> list event * outcome A.

#[export] Instance M_ret : MRet M := fun A a _ => ([], Ret a).
#[export] Instance M_bind : MBind M := fun A B k m en =>
  let '(t1, o) := m en in
  match o with
  | Ret a => let '(t2, o2) := k a en in (t1 ++ t2, o2)
  | Raise e => (t1, Raise e)
  end.

Definition raise {A} (e : exc) : M A := fun _ => ([], Raise e).
Definition log (lv : level) (m : msg) : M unit := fun _ => ([ELog lv m], Ret tt).
Definition ask : M env := fun en => ([], Ret en).

(** [try: m except ...]: [h e] is [Some handler] when a clause catches [e]. *)
Definition try_except {A} (m : M A) (h : exc -> option (M A)) : M A := fun en =>
  let '(t1, o) := m en in
  match o with
  | Ret a => (t1, Ret a)
  | Raise e =>
      match h e with
      | Some k => let '(t2, o2) := k en in (t1 ++ t2, o2)
      | None => (t1, Raise e)
      end
  end.

Definition of_option {A} (e : exc) (o : option A) : M A :=
  match o with Some a => mret a | None => raise e end.

(** [subprocess.Popen(argv, ...)] followed by [communicate(stdin)]: the
    launch attempt is an event; a program that cannot be launched raises
    [FileNotFoundError]. *)
Definition spawn (argv : list pystr) (stdin : option pybytes) : M proc_result := fun en =>
  ([ESpawn argv stdin],
   match run_process (env_world en) argv stdin with
   | Some r => Ret r
   | None => Raise (OSError_launch argv)
   end).

Definition decode_utf8 (bs : pybytes) : M pystr := of_option UnicodeDecodeError (utf8_decode bs).
Definition py_float (s : pystr) : M pyfloat := of_option (ValueError_float s) (py_float_of_str s).
Definition py_int (s : pystr) : M Z := of_option (ValueError_int s) (py_int_of_str s).

Definition os_path_exists (p : pystr) : M bool := fun en => ([], Ret (path_exists (env_world en) p)).
Definition os_access_w (p : pystr) : M bool := fun en => ([], Ret (path_writable (env_world en) p)).
Definition os_getcwd : M pystr := fun en => ([], Ret (getcwd (env_world en))).

(** [for x in l: f(x)] *)
Fixpoint for_each {A} (f : A -> M unit) (l : list A) : M unit :=
  match l with
  | [] => mret ()
  | x :: l' => f x;; for_each f l'
  end.

(** [launches L m]: on every run, the programs [m] launches are a prefix
    of [L], in order, and a run that returns launched all of [L].  This is
    the ordering contract the functions of [file_info.py] keep towards the
    processes they start. *)
Definition launches {A} (L : list (list pystr * option pybytes)) (m : M A) : Prop :=
  forall en, spawns (m en).1 `prefix_of` L /\
             forall a, (m en).2 = Ret a -> spawns (m en).1 = L.

(** ** Dictionaries *)

Section Dict.
Context {K V : Type} `{EqDecision K}.

Fixpoint dict_set (k : K) (v : V) (d : list (K * V)) : list (K * V) :=
  match d with
  | [] => [(k, v)]
  | (k', v') :: d' => if decide (k = k') then (k', v) :: d' else (k', v') :: dict_set k v d'
  end.

Fixpoint dict_get (k : K) (d : list (K * V)) : option V :=
  match d with
  | [] => None
  | (k', v') :: d' => if decide (k = k') then Some v' else dict_get k d'
  end.

(** The value last given to [k] by a sequence of assignments. *)
Definition assoc_last (k : K) (l : list (K * V)) : option V :=
  list.last (omap (fun '(k', v) => if decide (k = k') then Some v else None) l).

Lemma dict_get_set_eq k v d : dict_get k (dict_set k v d) = Some v.
Proof.
  induction d as [|[k' v'] d IH]; simpl; [by rewrite decide_True|].
  case_decide; simpl; [by rewrite decide_True|]. by rewrite decide_False.
Qed.

Lemma dict_get_set_ne k k' v d : k <> k' -> dict_get k' (dict_set k v d) = dict_get k' d.
Proof.
  intros Hne. induction d as [|[k'' v'] d IH]; simpl.
  - by rewrite decide_False.
  - case_decide; simpl.
    + subst. by rewrite !decide_False by congruence.
    + case_decide; [done|]. exact IH.
Qed.

Lemma dict_get_fold_set k l d :
  dict_get k (fold_left (fun d '(k', v) => dict_set k' v d) l d)
  = match assoc_last k l with Some v => Some v | None => dict_get k d end.
Proof.
  revert d. induction l as [|[k' v] l IH] using rev_ind; intros d; [done|].
  rewrite fold_left_app. simpl. unfold assoc_last. rewrite omap_app. simpl.
  case_decide; subst.
  - rewrite last_snoc. apply dict_get_set_eq.
  - rewrite app_nil_r. rewrite dict_get_set_ne by done. apply IH.
Qed.

End Dict.

(** ** Running computations *)

(** [run_M] unfolds the monad and its primitive operations, so that a run
    on known oracle answers computes. *)
Ltac run_M :=
  unfold decode_utf8, py_float, py_int in *;
  unfold mbind, M_bind, mret, M_ret, try_except, spawn, log, raise, ask, of_option,
    os_path_exists, os_access_w, os_getcwd in *;
  simpl in *.

(** [oracle_cases] splits on every answer of the world and of the decoder
    the goal still depends on. *)
Ltac oracle_cases :=
  repeat (match goal with
  | |- context [run_process ?w ?a ?i] => destruct (run_process w a i) eqn:?
  | |- context [utf8_decode ?b] => destruct (utf8_decode b) eqn:?
  | |- context [path_exists ?w ?p] => destruct (path_exists w p) eqn:?
  | |- context [path_writable ?w ?p] => destruct (path_writable w p) eqn:?
  end; simpl).

Lemma run_ret {A} (a : A) en : (mret a : M A) en = ([], Ret a).
Proof. done. Qed.

Lemma run_bind {A B} (m : M A) (k : A -> M B) en :
  (m ≫= k) en = let '(t1, o) := m en in
                match o with
                | Ret a => let '(t2, o2) := k a en in (t1 ++ t2, o2)
                | Raise e => (t1, Raise e)
                end.
Proof. done. Qed.

Lemma run_bind_ret {A B} (m : M A) (k : A -> M B) en t a :
  m en = (t, Ret a) -> (m ≫= k) en = (t ++ (k a en).1, (k a en).2).
Proof. intros H. rewrite run_bind, H. by destruct (k a en). Qed.

Lemma run_bind_raise {A B} (m : M A) (k : A -> M B) en t e :
  m en = (t, Raise e) -> (m ≫= k) en = (t, Raise e).
Proof. intros H. by rewrite run_bind, H. Qed.

#[export] Hint Resolve dict_get_set_eq : pysox.

(** ** The launch order of composed computations *)

Lemma spawns_app t1 t2 : spawns (t1 ++ t2) = spawns t1 ++ spawns t2.
Proof. apply omap_app. Qed.

Lemma launches_ret {A} (a : A) : launches [] (mret a).
Proof. intros en. split; [apply prefix_nil|done]. Qed.

Lemma launches_raise {A} L e : launches L (raise (A:=A) e).
Proof. intros en. split; [apply prefix_nil|done]. Qed.

Lemma launches_log lv m : launches [] (log lv m).
Proof. intros en. split; [apply prefix_nil|done]. Qed.

Lemma launches_ask : launches [] ask.
Proof. intros en. split; [apply prefix_nil|done]. Qed.

Lemma launches_of_option {A} e (o : option A) : launches [] (of_option e o).
Proof. destruct o; [apply launches_ret|apply launches_raise]. Qed.

Lemma launches_bind {A B} L1 L2 L (m : M A) (k : A -> M B) :
  launches L1 m -> (forall a, launches L2 (k a)) -> L = L1 ++ L2 -> launches L (m ≫= k).
Proof.
  intros Hm Hk -> en. rewrite run_bind. destruct (Hm en) as [Hp Hr].
  destruct (m en) as [t1 [a|e]]; simpl in *.
  - specialize (Hr a eq_refl). destruct (Hk a en) as [Hp' Hr'].
    destruct (k a en) as [t2 o2]; simpl in *. rewrite spawns_app, Hr.
    split; [by apply prefix_app|]. intros b Hb. by rewrite (Hr' b Hb).
  - split; [by apply prefix_app_r|done].
Qed.

Lemma launches_os_path_exists p : launches [] (os_path_exists p).
Proof. intros en. split; [apply prefix_nil|done]. Qed.

Lemma launches_os_access_w p : launches [] (os_access_w p).
Proof. intros en. split; [apply prefix_nil|done]. Qed.

Lemma launches_os_getcwd : launches [] os_getcwd.
Proof. intros en. split; [apply prefix_nil|done]. Qed.

#[export] Hint Resolve launches_ret launches_raise launches_log launches_ask
  launches_of_option launches_os_path_exists launches_os_access_w launches_os_getcwd : pysox.

(** [launches_solve] splits a composed computation at its binds and
    branches and closes the pieces with the [pysox] hints; the launch
    lists of the pieces are found by unification. *)
Ltac launches_solve :=
  repeat (match goal with
  | |- launches _ (_ ≫= _) => eapply launches_bind; [| intros ? |]
  | |- launches _ (if ?b then _ else _) => destruct b
  | |- launches _ (match ?x with _ => _ end) => destruct x
  | |- launches _ _ => solve [eauto with pysox]
  | |- _ = _ => simpl; reflexivity
  end).

