(* ===== verification/Core.v ===== *)
(** * Core: the process runner and the introspection calls ([sox/core.py])

    One definition per function of [core.py], in the monad of
    [Runtime]: [sox] (lines 41-117), [_get_valid_formats] (127-147),
    [soxi] (153-186), [play] (189-231), [is_number] (241-258) and
    [all_equal] (262-275), with the constants [SOXI_ARGS] (15) and
    [ENCODING_VALS] (17-27).  The [numpy] arrays [sox] writes to the
    tool's standard input are modelled for one and two dimensions:
    [tobytes] in C and Fortran order and the transpose [.T].

    The theorems state, for [sox]: which process is launched with which
    standard input (the canonical name first, the C-order bytes of the
    array), the sentinel [(1, None, None)] on a launch failure or a
    non-array payload, the decoded result on success, and the errors that
    escape the handler (an empty argument list, undecodable output).  For
    [soxi]: the argument check before any launch, the stripped reply, and
    [SoxiError] with the exit code.  For [_get_valid_formats]: no launch
    under [NO_SOX], and the tokens of the marker line otherwise. *)

From S2P Require Import Prelude PyStr Utf8 PyNum Runtime.

(** ** Constants *)

Definition SOXI_ARGS : list pystr :=
  [py "B"; py "b"; py "c"; py "a"; py "D"; py "e"; py "t"; py "s"; py "r"].

Definition ENCODING_VALS : list pystr :=
  [py "signed-integer"; py "unsigned-integer"; py "floating-point"; py "a-law";
   py "u-law"; py "oki-adpcm"; py "ima-adpcm"; py "ms-adpcm"; py "gsm-full-rate"].

(** ** numpy arrays of one or two dimensions *)

(** Each item is given by its raw bytes ([itemsize] of them). *)
Inductive ndarray :=
| Array1 (items : list pybytes)
| Array2 (nrows ncols : nat) (rows : list (list pybytes)).

(** A two-dimensional array has [nrows] rows of [ncols] items. *)
Definition wf_array (a : ndarray) : Prop :=
  match a with
  | Array1 _ => True
  | Array2 m n rows => length rows = m /\ Forall (fun r => length r = n) rows
  end.

Definition column (j : nat) (rows : list (list pybytes)) : list pybytes :=
  map (fun r => nth j r []) rows.

Definition transpose (ncols : nat) (rows : list (list pybytes)) : list (list pybytes) :=
  map (fun j => column j rows) (seq 0 ncols).

(** [a.T] *)
Definition array_T (a : ndarray) : ndarray :=
  match a with
  | Array1 xs => Array1 xs
  | Array2 m n rows => Array2 n m (transpose n rows)
  end.

Inductive order := OrderC | OrderF.

(** [a.tobytes(order=...)]: row by row in C order, column by column in
    Fortran order. *)
Definition tobytes (a : ndarray) (o : order) : pybytes :=
  match a with
  | Array1 xs => concat xs
  | Array2 _ n rows =>
      match o with
      | OrderC => concat (concat rows)
      | OrderF => concat (concat (transpose n rows))
      end
  end.

(** ** [sox] (lines 41-117) *)

(** The [src_array] argument: [None], an [np.ndarray], or anything else. *)
Inductive src_arg := NoArray | NDArray (a : ndarray) | NotArray.

(** The second component of the result: decoded text, raw bytes, or [None]. *)
Inductive sox_out := OutText (s : pystr) | OutBytes (b : pybytes) | OutNone.

(** Lines 73-78 (and 205-210 in [play]): the first argument becomes the
    canonical program name, or the name is inserted in front. *)
Definition program_argv (name a0 : pystr) (rest : list pystr) : list pystr :=
  if bool_decide (str_lower a0 = name) then name :: rest else name :: a0 :: rest.

Definition set_program (name : pystr) (args : list pystr) : M (list pystr) :=
  match args with
  | [] => raise IndexError
  | a0 :: rest => mret (program_argv name a0 rest)
  end.

(** Lines 113-117: [except OSError] and [except TypeError]. *)
Definition sox_handler (e : exc) : option (M (Z * sox_out * option pystr)) :=
  if is_OSError e || is_TypeError e
  then Some (log ERROR (MSoxFailed e);; mret (1, OutNone, None))
  else None.

Definition sox (args : list pystr) (src_array : src_arg) (decode_out_with_utf : bool)
  : M (Z * sox_out * option pystr) :=
  argv ← set_program (py "sox") args;
  try_except
    (log INFO (MExecuting argv);;
     '(r, out) ←
       match src_array with
       | NoArray =>
           r ← spawn argv None;
           if decode_out_with_utf
           then (s ← decode_utf8 (stdout r); mret (r, OutText s))
           else mret (r, OutBytes (stdout r))
       | NDArray a =>
           r ← spawn argv (Some (tobytes (array_T a) OrderF));
           mret (r, OutBytes (stdout r))
       | NotArray => raise TypeError_src_array
       end;
     log INFO MSoxTook;;
     err ← decode_utf8 (stderr r);
     mret (returncode r, out, Some err))
    sox_handler.

(** ** [subprocess.check_output(args)] (standard library) *)

Definition check_output (argv : list pystr) : M pybytes :=
  r ← spawn argv None;
  if bool_decide (returncode r = 0) then mret (stdout r)
  else raise (CalledProcessError (returncode r) (stdout r)).

(** ** [_get_valid_formats] (lines 127-147) *)

Definition AUDIO_FORMATS_MARKER : pystr := py "AUDIO FILE FORMATS:".

Definition _get_valid_formats : M (list pystr) :=
  en ← ask;
  if NO_SOX en then mret [] else
  so ← check_output [py "sox"; py "-h"];
  so ← decode_utf8 so;
  let lines := str_split c_nl so in
  match list_find (fun l => str_contains AUDIO_FORMATS_MARKER l = true) lines with
  | Some (_, line) => mret (drop 3 (str_split c_space line))
  | None => raise IndexError
  end.

(** ** [soxi] (lines 153-186) *)

Definition soxi_argv (filepath argument : pystr) : list pystr :=
  [py "sox"; py "--i"; py "-" ++ argument; filepath].

Definition soxi (filepath argument : pystr) : M pystr :=
  if bool_decide (argument ∉ SOXI_ARGS) then raise (ValueError_soxi_arg argument) else
  shell_output ←
    try_except (check_output (soxi_argv filepath argument))
      (fun e => match e with
                | CalledProcessError rc out =>
                    Some (log INFO (MSoxiErrorMessage out);; raise (SoxiError rc))
                | _ => None
                end);
  s ← decode_utf8 shell_output;
  mret (strip (in_chars [c_nl; c_cr]) s).

(** ** [play] (lines 189-231) *)

Definition play (args : list pystr) : M bool :=
  argv ← set_program (py "play") args;
  try_except
    (log INFO (MExecuting argv);;
     r ← spawn argv None;
     log INFO MPlayStderr;;
     if bool_decide (returncode r = 0) then mret true
     else (log INFO (MPlayReturned (returncode r));; mret false))
    (fun e => if is_OSError e then Some (log ERROR (MPlayOSError e);; mret false)
              else if is_TypeError e then Some (log ERROR (MPlayTypeError e);; mret false)
              else None).

(** ** [is_number] (lines 241-258) and [all_equal] (lines 262-275) *)

(** The Python values [is_number] is called with. *)
Inductive pyobj := OStr (s : pystr) | OInt (z : Z) | OFloat (f : pyfloat) | OBool (b : bool)
                 | ONone | OOther.

(** [float(x)]: an [int] too large for a double raises [OverflowError]. *)
Definition float_of_obj (o : pyobj) : M pyfloat :=
  match o with
  | OStr s => py_float s
  | OInt z => of_option OverflowError_float (float_of_int z)
  | OFloat f => mret f
  | OBool b => of_option OverflowError_float (float_of_int (if b then 1 else 0))
  | ONone | OOther => raise TypeError_float
  end.

Definition is_number (var : pyobj) : M bool :=
  try_except (float_of_obj var;; mret true)
    (fun e => if is_ValueError e || is_TypeError e then Some (mret false) else None).

Definition all_equal `{EqDecision A} (list_of_things : list A) : bool :=
  bool_decide (length (remove_dups list_of_things) <= 1)%nat.

(** ** Specification helpers *)

(** The standard input [sox] gives the tool. *)
Definition sox_stdin (src : src_arg) : option pybytes :=
  match src with NDArray a => Some (tobytes (array_T a) OrderF) | _ => None end.

(** ** Sample worlds for the concrete checks

    [demo_env answer] is a world in which every process launch gets
    [answer] ([None]: the program cannot be launched), every path exists
    and is writable, and [NO_SOX] is false. *)
Definition demo_world (answer : option proc_result) : world :=
  mk_world (fun _ _ => answer) (fun _ => true) (fun _ => true) (py "/tmp").

Definition demo_env (answer : option proc_result) : env := mk_env (demo_world answer) false [].

(** ** Lemmas on arrays *)

Lemma map_nth_seq (l : list pybytes) n :
  length l = n -> map (fun j => nth j l []) (seq 0 n) = l.
Proof.
  intros <-. induction l as [|x l IH]; [done|]. simpl. f_equal.
  rewrite <- seq_shift, map_map. exact IH.
Qed.

Lemma map_nth_seq_rows (rows : list (list pybytes)) m :
  length rows = m -> map (fun i => nth i rows []) (seq 0 m) = rows.
Proof.
  intros <-. induction rows as [|x l IH]; [done|]. simpl. f_equal.
  rewrite <- seq_shift, map_map. exact IH.
Qed.

Lemma nth_column i j rows : nth i (column j rows) [] = nth j (nth i rows []) [].
Proof.
  unfold column. destruct (decide (i < length rows)%nat).
  - rewrite (nth_indep _ [] (nth j [] [])) by (by rewrite length_map).
    exact (map_nth (fun r => nth j r []) rows [] i).
  - rewrite (nth_overflow (map _ rows)) by (rewrite length_map; lia).
    rewrite (nth_overflow rows) by lia. by destruct j.
Qed.

(** Transposing twice gives back a rectangular array. *)
Lemma transpose_involutive m n rows :
  length rows = m -> Forall (fun r => length r = n) rows ->
  transpose m (transpose n rows) = rows.
Proof.
  intros Hm Hn. unfold transpose at 1. unfold column.
  transitivity (map (fun i => nth i rows []) (seq 0 m)); [|by apply map_nth_seq_rows].
  apply map_ext_in.
  intros i Hi. apply in_seq in Hi.
  unfold transpose. rewrite map_map.
  erewrite map_ext; [apply map_nth_seq|].
  - apply (proj1 (Forall_forall _ _) Hn). apply list_elem_of_In, nth_In. lia.
  - intros j. simpl. apply nth_column.
Qed.

(** [a.T.tobytes(order="F")] is [a.tobytes(order="C")]: the bytes [sox]
    writes are the array in row-major order. *)
Theorem tobytes_T_F a : wf_array a -> tobytes (array_T a) OrderF = tobytes a OrderC.
Proof.
  destruct a as [xs|m n rows]; [done|]. intros [Hm Hn]. simpl.
  by rewrite (transpose_involutive m n rows).
Qed.

(** ** Runs of [sox] *)

Lemma program_argv_eq name a0 rest :
  program_argv name a0 rest
  = name :: (if bool_decide (str_lower a0 = name) then rest else a0 :: rest).
Proof. unfold program_argv. by case_bool_decide. Qed.

(** (C1) [sox] launches exactly one process: the canonical [sox] program
    with the caller's arguments (a leading [sox] in any case replaced, any
    other first argument kept after it), with no standard input or with
    the bytes of the array. *)
Theorem sox_launches_sox_once a0 rest src dec en :
  src <> NotArray ->
  spawns (sox (a0 :: rest) src dec en).1 =
    [(py "sox" :: (if bool_decide (str_lower a0 = py "sox") then rest else a0 :: rest),
      sox_stdin src)].
Proof.
  intros Hs. rewrite <- program_argv_eq. unfold sox.
  destruct src as [|a|]; [| |done]; run_M; [destruct dec|]; oracle_cases; done.
Qed.

(** (C2) For a two-dimensional array, the standard input [sox] gives the
    launched tool is the array in row-major (C) order. *)
Theorem sox_stdin_row_major a0 rest a dec en :
  wf_array a ->
  spawns (sox (a0 :: rest) (NDArray a) dec en).1 =
    [(program_argv (py "sox") a0 rest, Some (tobytes a OrderC))].
Proof.
  intros Hwf. rewrite <- (tobytes_T_F a Hwf). unfold sox. run_M. oracle_cases; done.
Qed.

(** (C3) When the program cannot be launched, [sox] logs the failure and
    returns the sentinel [(1, None, None)]. *)
Theorem sox_launch_failure a0 rest src dec en :
  src <> NotArray ->
  run_process (env_world en) (program_argv (py "sox") a0 rest) (sox_stdin src) = None ->
  sox (a0 :: rest) src dec en =
    ([ELog INFO (MExecuting (program_argv (py "sox") a0 rest));
      ESpawn (program_argv (py "sox") a0 rest) (sox_stdin src);
      ELog ERROR (MSoxFailed (OSError_launch (program_argv (py "sox") a0 rest)))],
     Ret (1, OutNone, None)).
Proof.
  intros Hs Hrun. unfold sox. destruct src as [|a|]; [| |done]; run_M;
    rewrite Hrun; simpl; [destruct dec|]; done.
Qed.

(** (C4) A payload that is not an array is reported through the sentinel
    status without launching anything. *)
Theorem sox_not_array a0 rest dec en :
  sox (a0 :: rest) NotArray dec en =
    ([ELog INFO (MExecuting (program_argv (py "sox") a0 rest));
      ELog ERROR (MSoxFailed TypeError_src_array)],
     Ret (1, OutNone, None)).
Proof. done. Qed.

(** (C5) On a launched process whose output decodes, [sox] returns the
    exit code of the process (0 on success, where the docstring at lines
    61-62 promises a bool that is [True] on success), the decoded standard
    output and the decoded standard error, after logging the command and
    the time taken. *)
Theorem sox_text_result a0 rest en r out err :
  run_process (env_world en) (program_argv (py "sox") a0 rest) None = Some r ->
  utf8_decode (stdout r) = Some out ->
  utf8_decode (stderr r) = Some err ->
  sox (a0 :: rest) NoArray true en =
    ([ELog INFO (MExecuting (program_argv (py "sox") a0 rest));
      ESpawn (program_argv (py "sox") a0 rest) None;
      ELog INFO MSoxTook],
     Ret (returncode r, OutText out, Some err)).
Proof.
  intros Hrun Ho He. unfold sox. run_M. rewrite Hrun. simpl. rewrite Ho. simpl. by rewrite He.
Qed.

(** (C6) With an array payload [sox] returns the exit code and the raw
    standard output bytes, undecoded whatever [decode_out_with_utf] says,
    where the docstring (line 65) promises an np.ndarray. *)
Theorem sox_array_result a0 rest a dec en r err :
  run_process (env_world en) (program_argv (py "sox") a0 rest) (sox_stdin (NDArray a)) = Some r ->
  utf8_decode (stderr r) = Some err ->
  (sox (a0 :: rest) (NDArray a) dec en).2 = Ret (returncode r, OutBytes (stdout r), Some err).
Proof. intros Hrun He. unfold sox. run_M. rewrite Hrun. simpl. by rewrite He. Qed.

(** (C7) Undecodable standard error is not caught: [UnicodeDecodeError]
    escapes [sox] instead of the sentinel status. *)
Theorem sox_stderr_undecodable a0 rest src dec en r :
  src <> NotArray ->
  run_process (env_world en) (program_argv (py "sox") a0 rest) (sox_stdin src) = Some r ->
  (src = NoArray -> dec = true -> is_Some (utf8_decode (stdout r))) ->
  utf8_decode (stderr r) = None ->
  (sox (a0 :: rest) src dec en).2 = Raise UnicodeDecodeError.
Proof.
  intros Hs Hrun Hout He. unfold sox.
  destruct src as [|a|]; [| |done]; run_M; rewrite Hrun; simpl; [destruct dec|].
  - destruct (Hout eq_refl eq_refl) as [o Ho]. rewrite Ho. simpl. by rewrite He.
  - by rewrite He.
  - by rewrite He.
Qed.

(** (C8) An empty argument list raises [IndexError] before anything is
    logged or launched: the name is not inserted. *)
Theorem sox_empty_args src dec en : sox [] src dec en = ([], Raise IndexError).
Proof. done. Qed.

(** ** Runs of [soxi] *)

(** (C9) An argument outside [SOXI_ARGS] raises [ValueError] before any
    process is launched or anything is logged. *)
Theorem soxi_rejects_unknown_argument filepath argument en :
  argument ∉ SOXI_ARGS -> soxi filepath argument en = ([], Raise (ValueError_soxi_arg argument)).
Proof. intros H. unfold soxi. by rewrite bool_decide_true. Qed.

(** (C10) On success [soxi] runs [sox --i -<argument> <filepath>] once and
    returns its decoded output with the surrounding newlines and carriage
    returns removed. *)
Theorem soxi_reply filepath argument en r s :
  argument ∈ SOXI_ARGS ->
  run_process (env_world en) (soxi_argv filepath argument) None = Some r ->
  returncode r = 0 -> utf8_decode (stdout r) = Some s ->
  soxi filepath argument en =
    ([ESpawn (soxi_argv filepath argument) None], Ret (strip (in_chars [c_nl; c_cr]) s)).
Proof.
  intros Ha Hrun Hrc Hs. unfold soxi. rewrite bool_decide_false by auto.
  unfold check_output. run_M. rewrite Hrun. simpl.
  rewrite bool_decide_true by done. simpl. by rewrite Hs.
Qed.

(** (C11) A non-zero exit status of the tool becomes [SoxiError] carrying
    that status, after the tool's output is logged. *)
Theorem soxi_tool_failure filepath argument en r :
  argument ∈ SOXI_ARGS ->
  run_process (env_world en) (soxi_argv filepath argument) None = Some r ->
  returncode r <> 0 ->
  soxi filepath argument en =
    ([ESpawn (soxi_argv filepath argument) None; ELog INFO (MSoxiErrorMessage (stdout r))],
     Raise (SoxiError (returncode r))).
Proof.
  intros Ha Hrun Hrc. unfold soxi. rewrite bool_decide_false by auto.
  unfold check_output. run_M. rewrite Hrun. simpl.
  by rewrite bool_decide_false.
Qed.

(** (C12) A tool that cannot be launched is not reported through a status:
    [FileNotFoundError] escapes [soxi]. *)
Theorem soxi_launch_failure filepath argument en :
  argument ∈ SOXI_ARGS ->
  run_process (env_world en) (soxi_argv filepath argument) None = None ->
  soxi filepath argument en =
    ([ESpawn (soxi_argv filepath argument) None],
     Raise (OSError_launch (soxi_argv filepath argument))).
Proof.
  intros Ha Hrun. unfold soxi. rewrite bool_decide_false by auto.
  unfold check_output. run_M. by rewrite Hrun.
Qed.

(** ** Runs of [_get_valid_formats] *)

(** (C13) Under [NO_SOX] the format list is empty and nothing is launched. *)
Theorem get_valid_formats_no_sox en :
  NO_SOX en = true -> _get_valid_formats en = ([], Ret []).
Proof. intros H. unfold _get_valid_formats. run_M. by rewrite H. Qed.

Lemma str_split_join_nonempty c parts :
  parts <> [] -> Forall (fun q => c ∉ q) parts -> str_split c (str_join c parts) = parts.
Proof. destruct parts; [done|]. intros _. apply str_split_join. Qed.

(** The first line of a help text that holds the marker is found at its
    position among the lines. *)
Lemma marker_line_found pre line post :
  Forall (fun l => c_nl ∉ l) (pre ++ line :: post) ->
  Forall (fun l => str_contains AUDIO_FORMATS_MARKER l = false) pre ->
  str_contains AUDIO_FORMATS_MARKER line = true ->
  list_find (fun l => str_contains AUDIO_FORMATS_MARKER l = true)
    (str_split c_nl (str_join c_nl (pre ++ line :: post))) = Some (length pre, line).
Proof.
  intros Hnl Hpre Hline. rewrite str_split_join_nonempty by (done || by destruct pre).
  rewrite list_find_app_r.
  - simpl. rewrite decide_True by done. done.
  - apply list_find_None. eapply Forall_impl; [exact Hpre|]. simpl. intros l ->. done.
Qed.

(** (C14) Otherwise the formats are the space-separated tokens after the
    third of the first line of [sox -h] that contains
    [AUDIO FILE FORMATS:]. *)
Theorem get_valid_formats_marker en r pre line post :
  NO_SOX en = false ->
  run_process (env_world en) [py "sox"; py "-h"] None = Some r ->
  returncode r = 0 ->
  utf8_decode (stdout r) = Some (str_join c_nl (pre ++ line :: post)) ->
  Forall (fun l => c_nl ∉ l) (pre ++ line :: post) ->
  Forall (fun l => str_contains AUDIO_FORMATS_MARKER l = false) pre ->
  str_contains AUDIO_FORMATS_MARKER line = true ->
  _get_valid_formats en =
    ([ESpawn [py "sox"; py "-h"] None], Ret (drop 3 (str_split c_space line))).
Proof.
  intros Hns Hrun Hrc Hdec Hnl Hpre Hline. unfold _get_valid_formats, check_output.
  run_M. rewrite Hns, Hrun. simpl. rewrite bool_decide_true by done. simpl.
  rewrite Hdec. simpl. by rewrite marker_line_found.
Qed.

(** (C15) Without a marker line the probe raises [IndexError]. *)
Theorem get_valid_formats_no_marker en r text :
  NO_SOX en = false ->
  run_process (env_world en) [py "sox"; py "-h"] None = Some r ->
  returncode r = 0 -> utf8_decode (stdout r) = Some text ->
  Forall (fun l => str_contains AUDIO_FORMATS_MARKER l = false) (str_split c_nl text) ->
  _get_valid_formats en = ([ESpawn [py "sox"; py "-h"] None], Raise IndexError).
Proof.
  intros Hns Hrun Hrc Hdec Hno. unfold _get_valid_formats, check_output.
  run_M. rewrite Hns, Hrun. simpl. rewrite bool_decide_true by done. simpl.
  rewrite Hdec. simpl. rewrite (proj2 (list_find_None _ _)); [done|].
  eapply Forall_impl; [exact Hno|]. simpl. intros l ->. done.
Qed.

(** ** Runs of [play] *)

(** (C16) [play] is [True] exactly when the launched [play] exits with 0. *)
Theorem play_status a0 rest en r :
  run_process (env_world en) (program_argv (py "play") a0 rest) None = Some r ->
  (play (a0 :: rest) en).2 = Ret (bool_decide (returncode r = 0)).
Proof. intros Hrun. unfold play. run_M. rewrite Hrun. simpl. by case_bool_decide. Qed.

(** (C17) A [play] that cannot be launched gives [False], not an error. *)
Theorem play_launch_failure a0 rest en :
  run_process (env_world en) (program_argv (py "play") a0 rest) None = None ->
  play (a0 :: rest) en =
    ([ELog INFO (MExecuting (program_argv (py "play") a0 rest));
      ESpawn (program_argv (py "play") a0 rest) None;
      ELog ERROR (MPlayOSError (OSError_launch (program_argv (py "play") a0 rest)))],
     Ret false).
Proof. intros Hrun. unfold play. run_M. by rewrite Hrun. Qed.

(** ** [is_number] and [all_equal] *)

(** (C18) On a text, [is_number] says whether [float()] accepts it. *)
Theorem is_number_str s en :
  is_number (OStr s) en = ([], Ret (bool_decide (is_Some (py_float_of_str s)))).
Proof.
  unfold is_number, float_of_obj. run_M.
  by destruct (py_float_of_str s).
Qed.

(** (C19) [float()] of a huge [int] raises [OverflowError], which
    [is_number] does not catch. *)
Theorem is_number_huge_int z en :
  2 ^ 1024 - 2 ^ 970 <= Z.abs z ->
  is_number (OInt z) en = ([], Raise OverflowError_float).
Proof. intros H. unfold is_number, float_of_obj. run_M. by rewrite float_of_int_overflow. Qed.

(** (C20) [all_equal] holds exactly when any two elements are equal. *)
Theorem all_equal_spec `{EqDecision A} (l : list A) :
  all_equal l = true <-> forall x y, x ∈ l -> y ∈ l -> x = y.
Proof.
  unfold all_equal. rewrite bool_decide_eq_true. split.
  - intros Hlen x y Hx Hy. apply elem_of_remove_dups in Hx, Hy.
    destruct (remove_dups l) as [|z [|z' zs]]; simpl in *; [set_solver|set_solver|lia].
  - intros Hall. pose proof (NoDup_remove_dups l) as Hnd.
    destruct (remove_dups l) as [|z [|z' zs]] eqn:E; simpl; [lia|lia|].
    exfalso. apply NoDup_cons in Hnd as [Hz _].
    assert (z = z') as ->; [|set_solver].
    apply Hall; apply elem_of_remove_dups; rewrite E; set_solver.
Qed.

(** ** What [sox] and [soxi] launch, for their callers *)

Lemma sox_launches a0 rest src dec :
  src <> NotArray ->
  launches [(program_argv (py "sox") a0 rest, sox_stdin src)] (sox (a0 :: rest) src dec).
Proof.
  intros Hs en. unfold sox.
  destruct src as [|a|]; [| |done]; run_M; [destruct dec|]; oracle_cases;
    (split; [done|intros ? [=]; done]).
Qed.

Lemma soxi_launches p arg : launches [(soxi_argv p arg, None)] (soxi p arg).
Proof.
  unfold soxi. case_bool_decide; [apply launches_raise|]. intros en.
  unfold check_output. run_M. oracle_cases; try case_bool_decide; simpl; oracle_cases;
    (split; [done|intros ? [=]; done]).
Qed.

(** ** Concrete checks of the theorems *)

Lemma sox_launches_sox_once_witness :
  NDArray (Array1 [[1]]) <> NotArray /\
  spawns (sox [py "SoX"; py "in.raw"] (NDArray (Array1 [[1]])) false (demo_env None)).1 =
    [(py "sox" :: (if bool_decide (str_lower (py "SoX") = py "sox") then [py "in.raw"]
                   else py "SoX" :: [py "in.raw"]),
      sox_stdin (NDArray (Array1 [[1]])))].
Proof. split; [done|]. apply sox_launches_sox_once. done. Defined.

Lemma sox_stdin_row_major_witness :
  wf_array (Array2 2 3 [[[1]; [2]; [3]]; [[4]; [5]; [6]]]) /\
  spawns (sox [py "-t"; py "raw"] (NDArray (Array2 2 3 [[[1]; [2]; [3]]; [[4]; [5]; [6]]])) false
            (demo_env None)).1
  = [(program_argv (py "sox") (py "-t") [py "raw"],
      Some (tobytes (Array2 2 3 [[[1]; [2]; [3]]; [[4]; [5]; [6]]]) OrderC))].
Proof.
  assert (H : wf_array (Array2 2 3 [[[1]; [2]; [3]]; [[4]; [5]; [6]]]))
    by (split; [done|repeat constructor]).
  split; [exact H|]. apply sox_stdin_row_major. exact H.
Defined.

Lemma sox_launch_failure_witness :
  run_process (env_world (demo_env None)) (program_argv (py "sox") (py "in.wav") [py "-n"])
    (sox_stdin NoArray) = None /\
  sox [py "in.wav"; py "-n"] NoArray true (demo_env None) =
    ([ELog INFO (MExecuting (program_argv (py "sox") (py "in.wav") [py "-n"]));
      ESpawn (program_argv (py "sox") (py "in.wav") [py "-n"]) (sox_stdin NoArray);
      ELog ERROR (MSoxFailed (OSError_launch (program_argv (py "sox") (py "in.wav") [py "-n"])))],
     Ret (1, OutNone, None)).
Proof. split; [done|]. apply sox_launch_failure; done. Defined.

Lemma sox_text_result_witness :
  sox [py "in.wav"; py "-n"] NoArray true (demo_env (Some (mk_proc 0 (py "out") (py "err")))) =
    ([ELog INFO (MExecuting (program_argv (py "sox") (py "in.wav") [py "-n"]));
      ESpawn (program_argv (py "sox") (py "in.wav") [py "-n"]) None;
      ELog INFO MSoxTook],
     Ret (0, OutText (py "out"), Some (py "err"))).
Proof. apply (sox_text_result _ _ _ (mk_proc 0 (py "out") (py "err"))); vm_compute; done. Defined.

Lemma sox_array_result_witness :
  (sox [py "-t"; py "raw"] (NDArray (Array1 [[7]])) true
     (demo_env (Some (mk_proc 0 [9] (py "err"))))).2
  = Ret (0, OutBytes [9], Some (py "err")).
Proof. apply (sox_array_result _ _ _ _ _ (mk_proc 0 [9] (py "err"))); vm_compute; done. Defined.

Lemma sox_stderr_undecodable_witness :
  utf8_decode [255] = None /\
  (sox [py "in.wav"] NoArray true (demo_env (Some (mk_proc 0 [] [255])))).2
  = Raise UnicodeDecodeError.
Proof.
  split; [vm_compute; done|].
  apply (sox_stderr_undecodable _ _ _ _ _ (mk_proc 0 [] [255])); [done|done| |vm_compute; done].
  intros _ _. vm_compute. by eexists.
Defined.

Lemma soxi_rejects_unknown_argument_witness :
  py "x" ∉ SOXI_ARGS /\
  soxi (py "a.wav") (py "x") (demo_env None) = ([], Raise (ValueError_soxi_arg (py "x"))).
Proof.
  assert (H : py "x" ∉ SOXI_ARGS) by (vm_compute; set_solver).
  split; [exact H|]. apply soxi_rejects_unknown_argument. exact H.
Defined.

Lemma soxi_reply_witness :
  strip (in_chars [c_nl; c_cr]) (py "2" ++ [c_nl]) = py "2" /\
  soxi (py "a.wav") (py "c") (demo_env (Some (mk_proc 0 (py "2" ++ [c_nl]) []))) =
    ([ESpawn (soxi_argv (py "a.wav") (py "c")) None],
     Ret (strip (in_chars [c_nl; c_cr]) (py "2" ++ [c_nl]))).
Proof.
  split; [vm_compute; done|].
  apply (soxi_reply _ _ _ (mk_proc 0 (py "2" ++ [c_nl]) [])); vm_compute; [set_solver|done..].
Defined.

Lemma soxi_tool_failure_witness :
  soxi (py "a.wav") (py "D") (demo_env (Some (mk_proc 1 (py "no") []))) =
    ([ESpawn (soxi_argv (py "a.wav") (py "D")) None; ELog INFO (MSoxiErrorMessage (py "no"))],
     Raise (SoxiError 1)).
Proof. apply (soxi_tool_failure _ _ _ (mk_proc 1 (py "no") [])); vm_compute; [set_solver|done..]. Defined.

Lemma soxi_launch_failure_witness :
  soxi (py "a.wav") (py "r") (demo_env None) =
    ([ESpawn (soxi_argv (py "a.wav") (py "r")) None],
     Raise (OSError_launch (soxi_argv (py "a.wav") (py "r")))).
Proof. apply soxi_launch_failure; vm_compute; [set_solver|done]. Defined.

Lemma get_valid_formats_no_sox_witness :
  NO_SOX (mk_env (demo_world None) true []) = true /\
  _get_valid_formats (mk_env (demo_world None) true []) = ([], Ret []).
Proof. split; [done|]. by apply get_valid_formats_no_sox. Defined.

Lemma get_valid_formats_marker_witness :
  _get_valid_formats
    (demo_env (Some (mk_proc 0 (str_join c_nl [py "usage"; py "AUDIO FILE FORMATS: 8svx aif wav"]) [])))
  = ([ESpawn [py "sox"; py "-h"] None], Ret [py "8svx"; py "aif"; py "wav"]).
Proof.
  apply (get_valid_formats_marker _ (mk_proc 0 (str_join c_nl [py "usage"; py "AUDIO FILE FORMATS: 8svx aif wav"]) [])
           [py "usage"] (py "AUDIO FILE FORMATS: 8svx aif wav") []);
    vm_compute; try done; repeat constructor; set_solver.
Defined.

Lemma get_valid_formats_no_marker_witness :
  _get_valid_formats (demo_env (Some (mk_proc 0 (py "usage") [])))
  = ([ESpawn [py "sox"; py "-h"] None], Raise IndexError).
Proof.
  apply (get_valid_formats_no_marker _ (mk_proc 0 (py "usage") []) (py "usage"));
    vm_compute; try done; repeat constructor.
Defined.

Lemma play_status_witness :
  (play [py "x.wav"] (demo_env (Some (mk_proc 2 [] [])))).2 = Ret (bool_decide (2 = 0)).
Proof. apply (play_status _ _ _ (mk_proc 2 [] [])). done. Defined.

Lemma play_launch_failure_witness :
  play [py "x.wav"] (demo_env None) =
    ([ELog INFO (MExecuting (program_argv (py "play") (py "x.wav") []));
      ESpawn (program_argv (py "play") (py "x.wav") []) None;
      ELog ERROR (MPlayOSError (OSError_launch (program_argv (py "play") (py "x.wav") [])))],
     Ret false).
Proof. apply play_launch_failure. done. Defined.

Lemma is_number_huge_int_witness :
  2 ^ 1024 - 2 ^ 970 <= Z.abs (2 ^ 1024) /\
  is_number (OInt (2 ^ 1024)) (demo_env None) = ([], Raise OverflowError_float).
Proof. split; [lia|]. apply is_number_huge_int. lia. Defined.
