(* ===== verification/FileInfo.v ===== *)
(** * FileInfo: validation, metadata and statistics ([sox/file_info.py])

    One definition per function of [file_info.py], in the monad of
    [Runtime], calling the [Core] model of [soxi] and [sox]:
    - validation: [file_extension] (319-332), [validate_input_file]
      (244-260), [validate_input_file_list] (263-279),
      [validate_output_file] (282-316);
    - the typed metadata accessors over [soxi]: [bitdepth] (13-34),
      [bitrate] (37-66), [channels] (69-85), [comments] (88-105),
      [duration] (108-128), [encoding] (131-147), [file_type] (150-166),
      [num_samples] (169-190), [sample_rate] (193-209);
    - statistics: [_stat_call] (387-405), [_parse_stat] (408-434),
      [stat] (369-384), [silent] (212-241) and [info] (335-366).

    [Path(p).exists()] is the world's [path_exists] on [str(Path(p))], the
    normalised path of [PyStr.path_str].  The last section proves the
    [launches] contract of every accessor and, from them, the order in
    which [info] starts its processes. *)

From S2P Require Import Prelude PyStr Utf8 PyNum Runtime Core.
From Stdlib Require Import QArith.
Local Open Scope Z_scope.

(** ** Validation *)

Definition file_extension (filepath : pystr) : pystr := str_lower (drop 1 (path_suffix filepath)).

(** Line 254, [Path(input_filepath)]: [exists()] asks the system about
    the normalised [str] of the path. *)
Definition pathlib_path (p : pystr) : pystr := path_str p.

(** Lines 258-260 and 309-311: the advisory check of the extension. *)
Definition warn_unsupported (ext : pystr) : M unit :=
  en ← ask;
  if bool_decide (ext ∉ VALID_FORMATS en)
  then log INFO (MValidFormats (VALID_FORMATS en));; log WARNING (MCannotProcess ext)
  else mret ().

Definition validate_input_file (input_filepath : pystr) : M unit :=
  found ← os_path_exists (pathlib_path input_filepath);
  if negb found then raise (IOError_missing input_filepath) else
  warn_unsupported (file_extension input_filepath).

(** The argument of [validate_input_file_list]: a [list] or another object. *)
Inductive list_arg := AList (paths : list pystr) | ANotList.

Definition validate_input_file_list (input_filepath_list : list_arg) : M unit :=
  match input_filepath_list with
  | ANotList => raise TypeError_list
  | AList l =>
      if bool_decide (length l < 2)%nat then raise ValueError_list_length
      else for_each validate_input_file l
  end.

(** [not os.access(os.getcwd(), os.W_OK)] *)
Definition cwd_not_writable : M bool :=
  cwd ← os_getcwd; w ← os_access_w cwd; mret (negb w).

Definition validate_output_file (output_filepath : pystr) : M unit :=
  if bool_decide (output_filepath = py "-n") then mret () else
  let dir := os_path_dirname output_filepath in
  c1 ← (if bool_decide (dir <> []) then mret true else cwd_not_writable);
  dir_w ← os_access_w dir;
  if c1 && negb dir_w then raise (IOError_nowrite output_filepath) else
  (warn_unsupported (file_extension output_filepath);;
   ' (found : bool) ← os_path_exists output_filepath;
   if found then log WARNING (MOverwrite output_filepath) else mret ()).

(** ** Metadata accessors over [soxi] *)

Definition bitdepth (input_filepath : pystr) : M (option Z) :=
  validate_input_file input_filepath;;
  output ← soxi input_filepath (py "b");
  if bool_decide (output = py "0")
  then log WARNING (MUnavailable FBitDepth input_filepath);; mret None
  else n ← py_int output; mret (Some n).

(** ["\0KMGTPEZY"], the SI prefixes by power of 1000. *)
Definition greek_prefixes : pystr := 0 :: py "KMGTPEZY".

Definition bitrate (input_filepath : pystr) : M (option pyfloat) :=
  validate_input_file input_filepath;;
  o ← soxi input_filepath (py "B");
  let output := strip (in_chars [c_cr; c_nl]) o in
  match list.last output with
  | None => raise IndexError
  | Some lastc =>
      let suffix := str_upper [lastc] in
      if bool_decide (output = py "0")
      then log WARNING (MUnavailable FBitRate input_filepath);; mret None
      else if str_contains suffix greek_prefixes then
        let multiplier := PFin (inject_Z (1000 ^ Z.of_nat (default 0%nat (str_find suffix greek_prefixes)))) in
        v ← py_float (removelast output); mret (Some (pf_mul v multiplier))
      else v ← py_float (removelast output); mret (Some v)
  end.

Definition channels (input_filepath : pystr) : M Z :=
  validate_input_file input_filepath;;
  output ← soxi input_filepath (py "c");
  py_int output.

Definition comments (input_filepath : pystr) : M pystr :=
  validate_input_file input_filepath;;
  soxi input_filepath (py "a").

Definition duration (input_filepath : pystr) : M (option pyfloat) :=
  validate_input_file input_filepath;;
  output ← soxi input_filepath (py "D");
  f ← py_float output;
  if pf_eqb f (PFin 0)
  then log WARNING (MUnavailable FDuration input_filepath);; mret None
  else f' ← py_float output; mret (Some f').

Definition encoding (input_filepath : pystr) : M pystr :=
  validate_input_file input_filepath;;
  soxi input_filepath (py "e").

Definition file_type (input_filepath : pystr) : M pystr :=
  validate_input_file input_filepath;;
  soxi input_filepath (py "t").

Definition num_samples (input_filepath : pystr) : M (option Z) :=
  validate_input_file input_filepath;;
  output ← soxi input_filepath (py "s");
  if bool_decide (output = py "0")
  then log WARNING (MUnavailable FNumSamples input_filepath);; mret None
  else n ← py_int output; mret (Some n).

Definition sample_rate (input_filepath : pystr) : M pyfloat :=
  validate_input_file input_filepath;;
  output ← soxi input_filepath (py "r");
  py_float output.

(** ** Statistics *)

Abbreviation stat_dict := (list (pystr * option pyfloat)).

Definition _stat_call (filepath : pystr) : M (option pystr) :=
  validate_input_file filepath;;
  '(_, _, stat_output) ← sox [py "sox"; filepath; py "-n"; py "stat"] NoArray true;
  mret (str_remove c_cr <$> stat_output).

(** The body of the loop of [_parse_stat] (lines 423-432) on one line. *)
Definition parse_stat_line (d : stat_dict) (line : pystr) : stat_dict :=
  match str_split c_colon line with
  | [key; v] => dict_set key (py_float_of_str (strip (in_chars [c_space]) v)) d
  | _ => d
  end.

Definition parse_stat_text (s : pystr) : stat_dict :=
  fold_left parse_stat_line (str_split c_nl s) [].

(** [stat_output.split] on [None] raises [AttributeError]. *)
Definition _parse_stat (stat_output : option pystr) : M stat_dict :=
  match stat_output with
  | None => raise AttributeError_none
  | Some s => mret (parse_stat_text s)
  end.

Definition stat (filepath : pystr) : M stat_dict :=
  stat_output ← _stat_call filepath;
  _parse_stat stat_output.

Definition MEAN_NORM : pystr := py "Mean    norm".

(** [mean_norm is not float("nan")] compares identities with a new
    object, which is always true. *)
Definition is_not_new_nan (x : pyfloat) : bool := true.

Definition silent (input_filepath : pystr) (threshold : pyfloat) : M bool :=
  validate_input_file input_filepath;;
  stat_dictionary ← stat input_filepath;
  log INFO (MStatDict stat_dictionary);;
  match dict_get MEAN_NORM stat_dictionary with
  | None => raise (KeyError MEAN_NORM)
  | Some None => log WARNING (MUnavailable FMeanNorm input_filepath);; mret false
  | Some (Some mean_norm) =>
      if is_not_new_nan mean_norm
      then (if pf_geb mean_norm threshold then mret false else mret true)
      else mret true
  end.

(** The default [threshold=0.001]. *)
Definition default_threshold : pyfloat := PFin (1 # 1000).

Inductive info_value := IInt (z : Z) | IFloat (f : pyfloat) | IStr (s : pystr) | IBool (b : bool)
                      | INone.

Definition opt_int (o : option Z) : info_value := match o with Some z => IInt z | None => INone end.
Definition opt_float (o : option pyfloat) : info_value :=
  match o with Some f => IFloat f | None => INone end.

Definition info (filepath : pystr) : M (list (pystr * info_value)) :=
  c ← channels filepath;
  sr ← sample_rate filepath;
  bd ← bitdepth filepath;
  br ← bitrate filepath;
  du ← duration filepath;
  ns ← num_samples filepath;
  enc ← encoding filepath;
  si ← silent filepath default_threshold;
  mret [(py "channels", IInt c); (py "sample_rate", IFloat sr); (py "bitdepth", opt_int bd);
        (py "bitrate", opt_float br); (py "duration", opt_float du);
        (py "num_samples", opt_int ns); (py "encoding", IStr enc); (py "silent", IBool si)].

(** ** Specification helpers *)

(** The tool answers [soxi p arg] with a reply that reads [out] once
    stripped. *)
Definition soxi_answers (en : env) (p arg out : pystr) : Prop :=
  exists r s, run_process (env_world en) (soxi_argv p arg) None = Some r /\
    returncode r = 0 /\ utf8_decode (stdout r) = Some s /\ strip (in_chars [c_nl; c_cr]) s = out.

(** The entries of a [stat] report: the lines with exactly one colon,
    split there, the value parsed after trimming spaces. *)
Definition stat_entries (s : pystr) : list (pystr * option pyfloat) :=
  omap (fun line => match str_split c_colon line with
                    | [k; v] => Some (k, py_float_of_str (strip (in_chars [c_space]) v))
                    | _ => None
                    end) (str_split c_nl s).

(** The world's answer to the statistics run of [_stat_call]. *)
Definition stat_answers (en : env) (p text : pystr) : Prop :=
  exists r o, run_process (env_world en) [py "sox"; p; py "-n"; py "stat"] None = Some r /\
    utf8_decode (stdout r) = Some o /\ utf8_decode (stderr r) = Some text.

(** The directory that must be writable for an output path. *)
Definition output_dir (en : env) (p : pystr) : pystr :=
  if bool_decide (os_path_dirname p = []) then getcwd (env_world en) else os_path_dirname p.

(** A sample world for the concrete checks: every process exits with 0
    and prints [reply] on both streams, every path exists, every non-empty
    path is writable, and the capability set is [wav]. *)
Definition reply_env (reply : pystr) : env :=
  mk_env (mk_world (fun _ _ => Some (mk_proc 0 reply reply)) (fun _ => true)
            (fun p => bool_decide (p <> [])) (py "/tmp"))
         false [py "wav"].

(** ** Validation *)

Lemma warn_unsupported_ret ext en : exists t, warn_unsupported ext en = (t, Ret ()).
Proof. unfold warn_unsupported. run_M. case_bool_decide; simpl; eauto. Qed.

Lemma validate_input_file_ok p en :
  path_exists (env_world en) (pathlib_path p) = true ->
  exists t, validate_input_file p en = (t, Ret ()) /\ spawns t = [].
Proof.
  intros H. unfold validate_input_file, warn_unsupported. run_M. rewrite H. simpl.
  case_bool_decide; simpl; eauto.
Qed.

(** (C21) A missing input file raises [IOError] before anything is logged. *)
Theorem validate_input_file_missing p en :
  path_exists (env_world en) (pathlib_path p) = false ->
  validate_input_file p en = ([], Raise (IOError_missing p)).
Proof. intros H. unfold validate_input_file. run_M. by rewrite H. Qed.

(** (C22) An existing input file is accepted; an extension outside the
    capability set only adds a warning. *)
Theorem validate_input_file_exists p en :
  path_exists (env_world en) (pathlib_path p) = true ->
  validate_input_file p en =
    (if bool_decide (file_extension p ∈ VALID_FORMATS en) then []
     else [ELog INFO (MValidFormats (VALID_FORMATS en));
           ELog WARNING (MCannotProcess (file_extension p))], Ret ()).
Proof.
  intros H. unfold validate_input_file, warn_unsupported. run_M. rewrite H. simpl.
  by do 2 case_bool_decide.
Qed.

(** (C23) A list of fewer than two paths raises [ValueError] and anything
    that is not a [list] (a [tuple] included) raises [TypeError], before
    any file is looked at. *)
Theorem validate_input_file_list_rejects l en :
  (length l < 2)%nat ->
  validate_input_file_list (AList l) en = ([], Raise ValueError_list_length) /\
  validate_input_file_list ANotList en = ([], Raise TypeError_list).
Proof. intros H. unfold validate_input_file_list. by rewrite bool_decide_true. Qed.

(** (C24) The null output ["-n"] is accepted whatever the file system. *)
Theorem validate_output_file_null en : validate_output_file (py "-n") en = ([], Ret ()).
Proof. unfold validate_output_file. by rewrite bool_decide_true. Qed.

(** (C25) Any other output path is refused with [IOError] exactly when its
    directory (the working directory for a bare file name) is not
    writable, given that the empty path is not writable. *)
Theorem validate_output_file_writable p en :
  path_writable (env_world en) [] = false -> p <> py "-n" ->
  (validate_output_file p en).2 =
    if path_writable (env_world en) (output_dir en p) then Ret () else Raise (IOError_nowrite p).
Proof.
  intros Hempty Hn. unfold validate_output_file, output_dir, cwd_not_writable, warn_unsupported.
  rewrite bool_decide_false by done. run_M.
  destruct (decide (os_path_dirname p = [])) as [Ed|Ed].
  - rewrite (bool_decide_false (os_path_dirname p ≠ [])) by (by intros []).
    rewrite (bool_decide_true (os_path_dirname p = [])) by done. rewrite Ed, Hempty. simpl.
    destruct (path_writable _ (getcwd _)); simpl; [|done].
    case_bool_decide; simpl; by destruct (path_exists _ p).
  - rewrite (bool_decide_true (os_path_dirname p ≠ [])) by done.
    rewrite (bool_decide_false (os_path_dirname p = [])) by done. simpl.
    destruct (path_writable _ (os_path_dirname p)); simpl; [|done].
    case_bool_decide; simpl; by destruct (path_exists _ p).
Qed.

(** ** Metadata accessors *)

#[local] Arguments str_find : simpl never.

Lemma soxi_answers_run en p arg out :
  arg ∈ SOXI_ARGS -> soxi_answers en p arg out ->
  soxi p arg en = ([ESpawn (soxi_argv p arg) None], Ret out).
Proof.
  intros Ha (r & s & Hrun & Hrc & Hs & <-). unfold soxi, check_output.
  rewrite bool_decide_false by auto. run_M. rewrite Hrun. simpl.
  rewrite bool_decide_true by done. simpl. by rewrite Hs.
Qed.

(** An accessor validates its input, asks [soxi], and goes on with the
    reply. *)
Lemma getter_outcome {A} en p arg out (k : pystr -> M A) :
  path_exists (env_world en) (pathlib_path p) = true -> arg ∈ SOXI_ARGS ->
  soxi_answers en p arg out ->
  ((validate_input_file p;; (soxi p arg ≫= k)) en).2 = (k out en).2.
Proof.
  intros He Ha Hs. destruct (validate_input_file_ok p en He) as (t & Ht & _).
  rewrite (run_bind_ret _ _ _ _ _ Ht). simpl.
  by rewrite (run_bind_ret _ _ _ _ _ (soxi_answers_run en p arg out Ha Hs)).
Qed.

Lemma soxi_answers_stripped en p arg out :
  soxi_answers en p arg out -> strip (in_chars [c_cr; c_nl]) out = out.
Proof.
  intros (r & s & _ & _ & _ & <-). rewrite (strip_ext _ (in_chars [c_nl; c_cr])).
  - apply strip_idem.
  - intros x. apply in_chars_comm.
Qed.

Ltac getter H1 H2 :=
  lazymatch type of H2 with
  | soxi_answers _ _ ?arg _ =>
      rewrite (getter_outcome _ _ arg _ _ H1
                 ltac:(apply list_elem_of_In; vm_compute; tauto) H2)
  end; run_M.

(** (C26) [bitdepth] maps the reply ["0"] to [None] and otherwise parses
    it with [int()]. *)
Theorem bitdepth_outcome p en out :
  path_exists (env_world en) (pathlib_path p) = true -> soxi_answers en p (py "b") out ->
  (bitdepth p en).2 =
    if bool_decide (out = py "0") then Ret None
    else match py_int_of_str out with Some n => Ret (Some n) | None => Raise (ValueError_int out) end.
Proof.
  intros He Hs. unfold bitdepth. getter He Hs.
  case_bool_decide; simpl; [done|]. by destruct (py_int_of_str out).
Qed.

(** (C27) [num_samples] likewise maps ["0"] to [None]. *)
Theorem num_samples_outcome p en out :
  path_exists (env_world en) (pathlib_path p) = true -> soxi_answers en p (py "s") out ->
  (num_samples p en).2 =
    if bool_decide (out = py "0") then Ret None
    else match py_int_of_str out with Some n => Ret (Some n) | None => Raise (ValueError_int out) end.
Proof.
  intros He Hs. unfold num_samples. getter He Hs.
  case_bool_decide; simpl; [done|]. by destruct (py_int_of_str out).
Qed.

(** (C28) [channels] takes the reply literally: ["0"] is zero channels. *)
Theorem channels_outcome p en out :
  path_exists (env_world en) (pathlib_path p) = true -> soxi_answers en p (py "c") out ->
  (channels p en).2 =
    match py_int_of_str out with Some n => Ret n | None => Raise (ValueError_int out) end.
Proof. intros He Hs. unfold channels. getter He Hs. by destruct (py_int_of_str out). Qed.

(** (C29) [duration] is [None] exactly when [float()] of the reply equals
    [0.0]; a reply that underflows to zero counts as unavailable too. *)
Theorem duration_outcome p en out :
  path_exists (env_world en) (pathlib_path p) = true -> soxi_answers en p (py "D") out ->
  (duration p en).2 =
    match py_float_of_str out with
    | None => Raise (ValueError_float out)
    | Some f => if pf_eqb f (PFin 0) then Ret None else Ret (Some f)
    end.
Proof.
  intros He Hs. unfold duration. getter He Hs.
  destruct (py_float_of_str out); simpl; [|done]. by destruct (pf_eqb _ _).
Qed.

Lemma bitrate_reply p en body c :
  soxi_answers en p (py "B") (body ++ [c]) ->
  strip (in_chars [c_cr; c_nl]) (body ++ [c]) = body ++ [c] /\
  list.last (body ++ [c]) = Some c /\ removelast (body ++ [c]) = body.
Proof.
  intros Hs. split_and!; [exact (soxi_answers_stripped _ _ _ _ Hs)|apply last_snoc|].
  apply removelast_last.
Qed.

(** (C30) A reply ending in the [k]-th letter of [K M G T P E Z Y]
    (either case) is the number before it times [1000^(k+1)]: [K] is a
    thousand, [M] a million, and so on. *)
Theorem bitrate_prefixed p en body c k f :
  path_exists (env_world en) (pathlib_path p) = true ->
  soxi_answers en p (py "B") (body ++ [c]) ->
  body ++ [c] <> py "0" ->
  (k < 8)%nat -> str_upper [c] = [nth k (py "KMGTPEZY") 0] ->
  py_float_of_str body = Some f ->
  (bitrate p en).2 = Ret (Some (pf_mul f (PFin (inject_Z (1000 ^ Z.of_nat (S k)))))).
Proof.
  intros He Hs Hz Hk Hu Hf. destruct (bitrate_reply p en body c Hs) as (Hst & Hl & Hr).
  assert (Hi : str_find (str_upper [c]) greek_prefixes = Some (S k)).
  { rewrite Hu. do 8 (destruct k as [|k]; [vm_compute; reflexivity|]). lia. }
  unfold bitrate. getter He Hs. rewrite Hst, Hl. simpl.
  rewrite bool_decide_false by done. unfold str_contains. rewrite Hi, Hr, Hf. done.
Qed.

(** (C31) A reply whose last character is not a prefix (a plain number)
    loses that character: the result is [float()] of the rest. *)
Theorem bitrate_unprefixed_drops_last p en body c f :
  path_exists (env_world en) (pathlib_path p) = true ->
  soxi_answers en p (py "B") (body ++ [c]) ->
  body ++ [c] <> py "0" ->
  str_find (str_upper [c]) greek_prefixes = None ->
  py_float_of_str body = Some f ->
  (bitrate p en).2 = Ret (Some f).
Proof.
  intros He Hs Hz Hi Hf. destruct (bitrate_reply p en body c Hs) as (Hst & Hl & Hr).
  unfold bitrate. getter He Hs. rewrite Hst, Hl. simpl.
  rewrite bool_decide_false by done. unfold str_contains. rewrite Hi, Hr, Hf. done.
Qed.

(** ** The statistics parser *)

Lemma parse_stat_fold lines d :
  fold_left parse_stat_line lines d
  = fold_left (fun d '(k, v) => dict_set k v d)
      (omap (fun line => match str_split c_colon line with
                         | [k; v] => Some (k, py_float_of_str (strip (in_chars [c_space]) v))
                         | _ => None
                         end) lines) d.
Proof.
  revert d. induction lines as [|line lines IH]; intros d; [done|]. simpl.
  unfold parse_stat_line at 2. rewrite IH.
  destruct (str_split c_colon line) as [|k [|v [|? ?]]]; done.
Qed.

(** (C32) The value of a key in the parsed report is the value of the last
    line that has exactly one colon and that key before it; other lines
    are ignored. *)
Theorem parse_stat_lookup k s :
  dict_get k (parse_stat_text s) = assoc_last k (stat_entries s).
Proof.
  unfold parse_stat_text, stat_entries. rewrite parse_stat_fold, dict_get_fold_set.
  by destruct (assoc_last _ _).
Qed.

(** ** [stat] and [silent] *)

Lemma stat_argv p : program_argv (py "sox") (py "sox") [p; py "-n"; py "stat"]
                    = [py "sox"; p; py "-n"; py "stat"].
Proof. rewrite program_argv_eq. by rewrite bool_decide_true by (vm_compute; reflexivity). Qed.

Lemma stat_run p en text :
  path_exists (env_world en) (pathlib_path p) = true -> stat_answers en p text ->
  exists t, stat p en = (t, Ret (parse_stat_text (str_remove c_cr text))).
Proof.
  intros He (r & o & Hrun & Ho & Ht). destruct (validate_input_file_ok p en He) as (t & Hv & _).
  unfold stat, _stat_call. rewrite <- stat_argv in Hrun.
  eexists. rewrite run_bind. rewrite (run_bind_ret _ _ _ _ _ Hv). simpl.
  unfold sox. run_M. rewrite Hrun. simpl. rewrite Ho. simpl. rewrite Ht. reflexivity.
Qed.

(** (C33) [silent]: a missing ["Mean    norm"] line raises [KeyError], an
    unparsable value counts as not silent, and otherwise the file is
    silent exactly when the mean norm is not [>=] the threshold. *)
Theorem silent_outcome p thr en text :
  path_exists (env_world en) (pathlib_path p) = true -> stat_answers en p text ->
  (silent p thr en).2 =
    match dict_get MEAN_NORM (parse_stat_text (str_remove c_cr text)) with
    | None => Raise (KeyError MEAN_NORM)
    | Some None => Ret false
    | Some (Some v) => Ret (negb (pf_geb v thr))
    end.
Proof.
  intros He Hs. destruct (validate_input_file_ok p en He) as (t & Hv & _).
  destruct (stat_run p en text He Hs) as (t' & Hst).
  unfold silent. rewrite (run_bind_ret _ _ _ _ _ Hv). simpl.
  rewrite (run_bind_ret _ _ _ _ _ Hst). simpl. run_M.
  destruct (dict_get MEAN_NORM _) as [[v|]|]; simpl; [|done|done].
  by destruct (pf_geb v thr).
Qed.

(** (C34) When [sox] cannot be launched, [stat] does not degrade
    gracefully: [_stat_call] returns [None] and [_parse_stat] raises
    [AttributeError]. *)
Theorem stat_launch_failure p en :
  path_exists (env_world en) (pathlib_path p) = true ->
  run_process (env_world en) [py "sox"; p; py "-n"; py "stat"] None = None ->
  (stat p en).2 = Raise AttributeError_none.
Proof.
  intros He Hrun. destruct (validate_input_file_ok p en He) as (t & Hv & _).
  rewrite <- stat_argv in Hrun.
  unfold stat, _stat_call. rewrite run_bind. rewrite (run_bind_ret _ _ _ _ _ Hv). simpl.
  unfold sox. run_M. rewrite Hrun. simpl. reflexivity.
Qed.

(** ** The order of launches of [info] *)

Lemma validate_input_file_launches p : launches [] (validate_input_file p).
Proof. unfold validate_input_file, warn_unsupported. launches_solve. Qed.

Lemma stat_call_launches p :
  launches [([py "sox"; p; py "-n"; py "stat"], None)] (_stat_call p).
Proof.
  rewrite <- stat_argv. unfold _stat_call.
  eapply launches_bind; [apply validate_input_file_launches| intros _ |done].
  eapply launches_bind; [by apply sox_launches| intros [[? ?] ?]; apply launches_ret|].
  by rewrite app_nil_r.
Qed.

#[local] Hint Resolve validate_input_file_launches soxi_launches stat_call_launches : pysox.

(** (C35) [info] launches, in this order, [soxi] for the channels, the
    sample rate, the bit depth, the bit rate, the duration, the number of
    samples and the encoding, then [sox p -n stat] for [silent]: every run
    launches a prefix of that sequence, and a run that returns the
    dictionary launched all of it. *)
Theorem info_launch_order p :
  launches (map (fun arg => (soxi_argv p arg, None))
                [py "c"; py "r"; py "b"; py "B"; py "D"; py "s"; py "e"]
            ++ [([py "sox"; p; py "-n"; py "stat"], None)]) (info p).
Proof.
  unfold info, channels, sample_rate, bitdepth, bitrate, duration, num_samples,
    encoding, silent, stat, _parse_stat, py_int, py_float.
  cbv zeta. launches_solve.
Qed.

(** ** Concrete checks of the theorems *)

Lemma validate_input_file_missing_witness :
  validate_input_file (py "gone.wav")
    (mk_env (mk_world (fun _ _ => None) (fun _ => false) (fun _ => false) []) false [])
  = ([], Raise (IOError_missing (py "gone.wav"))).
Proof. apply validate_input_file_missing. done. Defined.

Lemma validate_input_file_exists_witness :
  validate_input_file (py "a.MP3") (reply_env []) =
    (if bool_decide (file_extension (py "a.MP3") ∈ VALID_FORMATS (reply_env []))
     then []
     else [ELog INFO (MValidFormats (VALID_FORMATS (reply_env [])));
           ELog WARNING (MCannotProcess (file_extension (py "a.MP3")))], Ret ()).
Proof. apply validate_input_file_exists. done. Defined.

Lemma validate_input_file_list_rejects_witness :
  validate_input_file_list (AList [py "a.wav"]) (reply_env []) = ([], Raise ValueError_list_length) /\
  validate_input_file_list ANotList (reply_env []) = ([], Raise TypeError_list).
Proof. apply validate_input_file_list_rejects. simpl. lia. Defined.

Lemma validate_output_file_writable_witness :
  (validate_output_file (py "out/x.wav") (reply_env [])).2 =
    if path_writable (env_world (reply_env [])) (output_dir (reply_env []) (py "out/x.wav"))
    then Ret () else Raise (IOError_nowrite (py "out/x.wav")).
Proof. apply validate_output_file_writable; vm_compute; [reflexivity|discriminate]. Defined.

(** [solve_answers] discharges [soxi_answers] and [stat_answers] in
    [reply_env]. *)
Ltac solve_answers :=
  match goal with
  | |- soxi_answers (reply_env ?r) _ _ _ =>
      exists (mk_proc 0 r r), r; vm_compute; split_and!; reflexivity
  | |- stat_answers (reply_env ?r) _ _ =>
      exists (mk_proc 0 r r), r; vm_compute; split_and!; reflexivity
  end.

Lemma bitdepth_outcome_witness :
  (bitdepth (py "a.wav") (reply_env (py "0" ++ [c_nl]))).2 =
    if bool_decide (py "0" = py "0") then Ret None
    else match py_int_of_str (py "0") with
         | Some n => Ret (Some n) | None => Raise (ValueError_int (py "0")) end.
Proof. apply bitdepth_outcome; [done|solve_answers]. Defined.

Lemma num_samples_outcome_witness :
  (num_samples (py "a.wav") (reply_env (py "44100"))).2 =
    if bool_decide (py "44100" = py "0") then Ret None
    else match py_int_of_str (py "44100") with
         | Some n => Ret (Some n) | None => Raise (ValueError_int (py "44100")) end.
Proof. apply num_samples_outcome; [done|solve_answers]. Defined.

Lemma channels_outcome_witness :
  (channels (py "a.wav") (reply_env (py "0"))).2 =
    match py_int_of_str (py "0") with Some n => Ret n | None => Raise (ValueError_int (py "0")) end.
Proof. apply channels_outcome; [done|solve_answers]. Defined.

Lemma duration_outcome_witness :
  (duration (py "a.wav") (reply_env (py "1e-400"))).2 =
    match py_float_of_str (py "1e-400") with
    | None => Raise (ValueError_float (py "1e-400"))
    | Some f => if pf_eqb f (PFin 0) then Ret None else Ret (Some f)
    end.
Proof. apply duration_outcome; [done|solve_answers]. Defined.

Lemma bitrate_prefixed_witness :
  (bitrate (py "a.wav") (reply_env (py "128k"))).2
  = Ret (Some (pf_mul (PFin 128) (PFin (inject_Z (1000 ^ Z.of_nat 1))))).
Proof.
  apply (bitrate_prefixed _ _ (py "128") 107 0 (PFin 128));
    [done|solve_answers|vm_compute; discriminate|lia|vm_compute; reflexivity..].
Defined.

Lemma bitrate_unprefixed_drops_last_witness :
  (bitrate (py "a.wav") (reply_env (py "128"))).2 = Ret (Some (PFin 12)).
Proof.
  apply (bitrate_unprefixed_drops_last _ _ (py "12") 56 (PFin 12));
    [done|solve_answers|vm_compute; discriminate|vm_compute; reflexivity..].
Defined.

Lemma silent_outcome_witness :
  (silent (py "a.wav") default_threshold (reply_env (py "Mean    norm:  0.0005"))).2 =
    match dict_get MEAN_NORM (parse_stat_text (str_remove c_cr (py "Mean    norm:  0.0005"))) with
    | None => Raise (KeyError MEAN_NORM)
    | Some None => Ret false
    | Some (Some v) => Ret (negb (pf_geb v default_threshold))
    end.
Proof. apply silent_outcome; [done|solve_answers]. Defined.

Lemma stat_launch_failure_witness :
  (stat (py "a.wav")
     (mk_env (mk_world (fun _ _ => None) (fun _ => true) (fun _ => true) []) false [])).2
  = Raise AttributeError_none.
Proof. apply stat_launch_failure; done. Defined.
