(* ===== verification/Package.v ===== *)
(** * Package: importing [sox] ([sox/__init__.py] and [core.py] line 150)

    Importing the package runs [sox -h] through the shell
    ([os.popen("sox -h")], lines 9-22 of [__init__.py]): no line on its
    standard output sets [NO_SOX] and logs a warning.  Importing
    [sox.core] then evaluates [VALID_FORMATS = _get_valid_formats()].
    [package_init] builds the [env] every other function reads; its
    theorems say what [NO_SOX] and [VALID_FORMATS] are in the two cases
    the spec names.  The shell is modelled by its effect: it runs
    [sox -h] and passes on its standard output, which is empty when
    [sox] cannot be launched. *)

From S2P Require Import Prelude PyStr Utf8 PyNum Runtime Core.

(** [os.popen("sox -h").readlines()], in text mode. *)
Definition popen_sox_help : M pystr :=
  en ← ask;
  r ← (fun en' => ([ESpawn [py "sox"; py "-h"] None],
                   Ret (match run_process (env_world en') [py "sox"; py "-h"] None with
                        | Some r => stdout r
                        | None => []
                        end)));
  decode_utf8 r.

(** Lines 8-22 of [__init__.py]: [NO_SOX]. *)
Definition detect_no_sox : M bool :=
  out ← popen_sox_help;
  if bool_decide (str_split c_nl out = [[]])
  then log WARNING MSoxNotFound;; mret true
  else mret false.

(** The package import: [NO_SOX], then [VALID_FORMATS]. *)
Definition package_init (w : world) : list event * outcome env :=
  let en0 := mk_env w false [] in
  match detect_no_sox en0 with
  | (t1, Raise e) => (t1, Raise e)
  | (t1, Ret no_sox) =>
      match _get_valid_formats (mk_env w no_sox []) with
      | (t2, Raise e) => (t1 ++ t2, Raise e)
      | (t2, Ret formats) => (t1 ++ t2, Ret (mk_env w no_sox formats))
      end
  end.

(** ** Theorems *)

(** (C36) Without a launchable [sox], the import logs a warning, sets
    [NO_SOX], and leaves [VALID_FORMATS] empty without a second launch. *)
Theorem package_init_without_sox w :
  run_process w [py "sox"; py "-h"] None = None ->
  package_init w =
    ([ESpawn [py "sox"; py "-h"] None; ELog WARNING MSoxNotFound], Ret (mk_env w true [])).
Proof. intros H. unfold package_init, detect_no_sox, popen_sox_help. run_M. by rewrite H. Qed.

(** (C37) With [sox] printing a help text that holds the marker line, the
    import launches [sox -h] twice and [VALID_FORMATS] is the list of
    tokens of that line after the third. *)
Theorem package_init_with_sox w r pre line post :
  run_process w [py "sox"; py "-h"] None = Some r ->
  returncode r = 0 ->
  utf8_decode (stdout r) = Some (str_join c_nl (pre ++ line :: post)) ->
  Forall (fun l => c_nl ∉ l) (pre ++ line :: post) ->
  Forall (fun l => str_contains AUDIO_FORMATS_MARKER l = false) pre ->
  str_contains AUDIO_FORMATS_MARKER line = true ->
  package_init w =
    ([ESpawn [py "sox"; py "-h"] None; ESpawn [py "sox"; py "-h"] None],
     Ret (mk_env w false (drop 3 (str_split c_space line)))).
Proof.
  intros Hrun Hrc Hdec Hnl Hpre Hline.
  assert (Hne : str_split c_nl (str_join c_nl (pre ++ line :: post)) <> [[]]).
  { rewrite str_split_join_nonempty by (done || by destruct pre).
    intros Heq. destruct pre as [|? pre]; simpl in Heq.
    - injection Heq as -> _. by vm_compute in Hline.
    - injection Heq as _ Heq. destruct pre; discriminate. }
  unfold package_init, detect_no_sox, popen_sox_help. run_M. rewrite Hrun, Hdec. simpl.
  rewrite bool_decide_false by done. simpl.
  unfold _get_valid_formats, check_output. run_M. rewrite Hrun. simpl.
  rewrite bool_decide_true by done. simpl. rewrite Hdec. simpl.
  by rewrite marker_line_found.
Qed.

Lemma package_init_without_sox_witness :
  package_init (mk_world (fun _ _ => None) (fun _ => true) (fun _ => true) []) =
    ([ESpawn [py "sox"; py "-h"] None; ELog WARNING MSoxNotFound],
     Ret (mk_env (mk_world (fun _ _ => None) (fun _ => true) (fun _ => true) []) true [])).
Proof. apply package_init_without_sox. done. Defined.

Lemma package_init_with_sox_witness :
  package_init (demo_world (Some (mk_proc 0 (str_join c_nl [py "usage"; py "AUDIO FILE FORMATS: wav"]) [])))
  = ([ESpawn [py "sox"; py "-h"] None; ESpawn [py "sox"; py "-h"] None],
     Ret (mk_env (demo_world (Some (mk_proc 0 (str_join c_nl [py "usage"; py "AUDIO FILE FORMATS: wav"]) [])))
            false (drop 3 (str_split c_space (py "AUDIO FILE FORMATS: wav"))))).
Proof.
  apply (package_init_with_sox _ (mk_proc 0 (str_join c_nl [py "usage"; py "AUDIO FILE FORMATS: wav"]) [])
           [py "usage"] (py "AUDIO FILE FORMATS: wav") []);
    vm_compute; try done; repeat constructor; set_solver.
Defined.
